(** * EHR insurance verification gateway (server.js)

    A shallow embedding of the request handlers of [server.js] and of the
    two classes they use, [FHIRHelper] and [InsuranceVerificationService].

    - JavaScript values are a first-order datatype [value]; property reads
      follow the language rules the handlers depend on (a read on
      [undefined]/[null] throws a [TypeError], optional chaining
      short-circuits, [||] and [!] go by truthiness, a computed key is
      converted with ToPropertyKey and looked up along the prototype
      chain).
    - The remote FHIR server, [Math.random] and the clock are oracles of an
      environment [Env]; console output, HTTP requests and timers are
      recorded in a trace.  [async]/[await] code runs sequentially, so a
      handler is a function of the environment and the current state. *)

From Stdlib Require Import String Ascii List ZArith Bool Lia QArith.
From Stdlib Require Import DecimalString.
Import ListNotations.
Open Scope list_scope.
Open Scope Z_scope.
Open Scope string_scope.
Set Warnings "-register-all".

(** ** Values *)

(** JSON data as [JSON.parse] delivers it, plus [undefined] and built-in
    function objects (the latter only ever come out of the prototype
    chain).  A number is given by the integer of its JSON literal and
    stands for the double nearest to it; the handlers do no arithmetic on
    resource data.  A string is held as the bytes of its UTF-8 encoding.
    An object is the list of its own properties in insertion order; the
    first binding of a key is the one that counts. *)
Inductive value : Type :=
| VUndefined
| VNull
| VBool (b : bool)
| VNum (n : Z)
| VStr (s : string)
| VArr (items : list value)
| VObj (props : list (string * value))
| VFun (fname : string).

(** What a [throw] carries.  [AxiosError] is a rejected [axios.get]:
    [response_status] is [error.response?.status], absent when no
    response arrived at all. *)
Inductive Exn : Type :=
| JsError (message : string)
| TypeError (message : string)
| AxiosError (response_status : option Z) (message : string).

Definition exn_message (e : Exn) : string :=
  match e with
  | JsError m | TypeError m | AxiosError _ m => m
  end.

(** [error.response?.status] *)
Definition exn_response_status (e : Exn) : value :=
  match e with
  | AxiosError (Some s) _ => VNum s
  | _ => VUndefined
  end.

Inductive Result (A : Type) : Type :=
| Ok (a : A)
| Throw (e : Exn).
Arguments Ok {A} a.
Arguments Throw {A} e.

Definition rbind {A B} (r : Result A) (k : A -> Result B) : Result B :=
  match r with
  | Ok a => k a
  | Throw e => Throw e
  end.

Declare Scope result_scope.
Delimit Scope result_scope with res.
Notation "x <- c ;; k" := (rbind c (fun x => k))
  (at level 61, c at next level, right associativity) : result_scope.

(** ** Primitive operations *)

Definition nullish (v : value) : bool :=
  match v with
  | VUndefined | VNull => true
  | _ => false
  end.

(** ToBoolean. *)
Definition truthy (v : value) : bool :=
  match v with
  | VUndefined | VNull => false
  | VBool b => b
  | VNum n => negb (n =? 0)%Z
  | VStr s => negb (s =? "")%string
  | VArr _ | VObj _ | VFun _ => true
  end.

(** [a || b] *)
Definition js_or (a b : value) : value := if truthy a then a else b.

(** [v === 'lit'] and [v === n] against a primitive literal. *)
Definition is_str (v : value) (lit : string) : bool :=
  match v with
  | VStr s => (s =? lit)%string
  | _ => false
  end.

Definition is_num (v : value) (n : Z) : bool :=
  match v with
  | VNum m => (m =? n)%Z
  | _ => false
  end.

Definition is_array (v : value) : bool :=
  match v with
  | VArr _ => true
  | _ => false
  end.

Definition array_items (v : value) : list value :=
  match v with
  | VArr items => items
  | _ => []
  end.

Fixpoint assoc (k : string) (props : list (string * value)) : option value :=
  match props with
  | [] => None
  | (k', v) :: rest => if (k' =? k)%string then Some v else assoc k rest
  end.

Definition own (k : string) (props : list (string * value)) : value :=
  match assoc k props with
  | Some v => v
  | None => VUndefined
  end.

Definition kind_name (v : value) : string :=
  match v with
  | VNull => "null"
  | _ => "undefined"
  end.

Definition cannot_read (v : value) (k : string) : Exn :=
  TypeError ("Cannot read properties of " ++ kind_name v
             ++ " (reading '" ++ k ++ "')").

(** The length of a string in UTF-16 code units, which is what [length]
    counts: one for each character of one to three bytes, two for each
    character of four bytes (a surrogate pair). *)
Fixpoint utf16_length (s : string) : nat :=
  match s with
  | EmptyString => O
  | String c rest =>
      let n := nat_of_ascii c in
      ((if Nat.ltb n 128 then 1
        else if Nat.ltb n 192 then 0
        else if Nat.ltb n 240 then 1
        else 2) + utf16_length rest)%nat
  end.

Definition utf8_width (c : ascii) : nat :=
  let n := nat_of_ascii c in
  if Nat.ltb n 192 then 1
  else if Nat.ltb n 224 then 2
  else if Nat.ltb n 240 then 3
  else 4.

(** The high surrogate of the four-byte character that starts with the
    bytes [b0 b1 b2], in the three-byte form of the encoding. *)
Definition high_surrogate (b0 b1 b2 : ascii) : string :=
  let upper := (N.modulo (N_of_ascii b0) 8 * 4096
                + N.modulo (N_of_ascii b1) 64 * 64
                + N.modulo (N_of_ascii b2) 64)%N in
  let unit := (55296 + N.div (upper - 1024) 16)%N in
  String (ascii_of_N 237)
    (String (ascii_of_N (128 + N.modulo (N.div unit 64) 64))
       (String (ascii_of_N (128 + N.modulo unit 64)) EmptyString)).

(** The first UTF-16 code unit of a string, as a string: the first
    character, or the high surrogate of a first character outside the
    basic plane. *)
Definition first_code_unit (s : string) : string :=
  match s with
  | String b0 (String b1 (String b2 _)) =>
      if Nat.ltb (nat_of_ascii b0) 240 then substring 0 (utf8_width b0) s
      else high_surrogate b0 b1 b2
  | String b0 _ => substring 0 (utf8_width b0) s
  | EmptyString => EmptyString
  end.

(** [v.k] for the property names the source reads by a fixed name.  None
    of them ([name], [id], [telecom], [entry], [resource], [payor],
    [value], ...) is defined on a built-in prototype, so apart from
    [length] on arrays and strings and [name] on functions only own
    properties are found. *)
Definition field (v : value) (k : string) : Result value :=
  match v with
  | VUndefined | VNull => Throw (cannot_read v k)
  | VObj props => Ok (own k props)
  | VArr items =>
      Ok (if (k =? "length")%string then VNum (Z.of_nat (List.length items))
          else VUndefined)
  | VStr s =>
      Ok (if (k =? "length")%string then VNum (Z.of_nat (utf16_length s))
          else VUndefined)
  | VFun n => Ok (if (k =? "name")%string then VStr n else VUndefined)
  | VBool _ | VNum _ => Ok VUndefined
  end.

(** [v[0]] *)
Definition index0 (v : value) : Result value :=
  match v with
  | VUndefined | VNull => Throw (cannot_read v "0")
  | VArr items => Ok (nth 0 items VUndefined)
  | VStr s =>
      Ok (match s with
          | EmptyString => VUndefined
          | String _ _ => VStr (first_code_unit s)
          end)
  | VObj props => Ok (own "0" props)
  | VBool _ | VNum _ | VFun _ => Ok VUndefined
  end.

(** [v?.k] and [v?.[0]] *)
Definition opt_field (v : value) (k : string) : Result value :=
  if nullish v then Ok VUndefined else field v k.

Definition opt_index0 (v : value) : Result value :=
  if nullish v then Ok VUndefined else index0 v.

Definition string_of_Z (n : Z) : string :=
  NilZero.string_of_int (Z.to_int n).

(** The double nearest to a positive integer (ties to the even
    mantissa), as an integer. *)
Definition nearest_double (a : Z) : Z :=
  let bits := (Z.log2 a + 1)%Z in
  if (bits <=? 53)%Z then a
  else
    let e := (bits - 53)%Z in
    let q := Z.shiftr a e in
    let r := (a - Z.shiftl q e)%Z in
    let half := Z.shiftl 1 (e - 1) in
    let m := if (half <? r)%Z || ((r =? half)%Z && Z.odd q)
             then (q + 1)%Z else q in
    Z.shiftl m e.

(** Whether the decimal [v] reads back as the double [x] (of at least
    [2^53]): [v] lies between the midpoints to the neighbours of [x], the
    midpoints included when the mantissa of [x] is even. *)
Definition reads_as (x v : Z) : bool :=
  let e := (Z.log2 x - 52)%Z in
  let m := Z.shiftr x e in
  let ulp := Z.shiftl 1 e in
  let lo4 := (4 * x - (if (m =? Z.shiftl 1 52)%Z then ulp else 2 * ulp))%Z in
  let hi4 := (4 * x + 2 * ulp)%Z in
  ((lo4 <? 4 * v)%Z && (4 * v <? hi4)%Z)
  || (Z.even m && ((4 * v =? lo4)%Z || (4 * v =? hi4)%Z)).

(** The shortest decimal [s * 10^p] that reads back as [x], the nearest
    to [x] when there are two: the digits Number::toString prints. *)
Fixpoint shortest_digits (fuel : nat) (x : Z) : Z * Z :=
  let p := Z.of_nat fuel in
  let unit := (10 ^ p)%Z in
  let below := (x / unit)%Z in
  let above := (below + 1)%Z in
  let ok_below := (0 <? below)%Z && reads_as x (below * unit) in
  let ok_above := reads_as x (above * unit) in
  let nearer :=
    if (x - below * unit <? above * unit - x)%Z then below
    else if (above * unit - x <? x - below * unit)%Z then above
    else if Z.even below then below else above in
  if ok_below && ok_above then (nearer, p)
  else if ok_below then (below, p)
  else if ok_above then (above, p)
  else match fuel with
       | O => (x, 0%Z)
       | S fuel' => shortest_digits fuel' x
       end.

Fixpoint zeros (n : nat) : string :=
  match n with
  | O => EmptyString
  | S n' => String "0" (zeros n')
  end.

Definition scientific (digits : string) (exponent : Z) : string :=
  match digits with
  | EmptyString => EmptyString
  | String d EmptyString => String d ("e+" ++ string_of_Z exponent)
  | String d rest => String d ("." ++ rest ++ "e+" ++ string_of_Z exponent)
  end.

(** Number::toString on the number an integer literal stands for: the
    integer itself below [2^53]; beyond, the shortest digits of the
    nearest double, written out up to 21 digits and in exponent form
    after that ([1e+21]); [Infinity] past the largest double. *)
Definition number_to_string (n : Z) : string :=
  if (n =? 0)%Z then "0"
  else
    let sign := if (n <? 0)%Z then "-" else "" in
    let x := nearest_double (Z.abs n) in
    if (x <? 2 ^ 53)%Z then sign ++ string_of_Z x
    else if (2 ^ 1024 <=? x)%Z then sign ++ "Infinity"
    else
      let (s, p) := shortest_digits (String.length (string_of_Z x)) x in
      let digits := string_of_Z s in
      let n10 := (Z.of_nat (String.length digits) + p)%Z in
      if (n10 <=? 21)%Z then sign ++ digits ++ zeros (Z.to_nat p)
      else sign ++ scientific digits (n10 - 1).

Definition comma_join (s t : string) : string := s ++ "," ++ t.

(** ToString, which is also ToPropertyKey on these values and what a
    template literal applies to an interpolated value.  A plain object
    goes through [Object.prototype.toString] unless an own [toString]
    property (never callable in parsed JSON) shadows it; then [valueOf]
    cannot produce a primitive either and the conversion throws.  An array
    joins its elements with commas, [undefined] and [null] counting as
    empty. *)
Fixpoint to_string (v : value) : Result string :=
  match v with
  | VUndefined => Ok "undefined"
  | VNull => Ok "null"
  | VBool true => Ok "true"
  | VBool false => Ok "false"
  | VNum n => Ok (number_to_string n)
  | VStr s => Ok s
  | VArr items =>
      (fix join (l : list value) : Result string :=
         match l with
         | [] => Ok ""
         | x :: rest =>
             rbind (match x with
                    | VUndefined | VNull => Ok ""
                    | _ => to_string x
                    end)
                   (fun s =>
                      match rest with
                      | [] => Ok s
                      | _ :: _ => rbind (join rest)
                                        (fun t => Ok (comma_join s t))
                      end)
         end) items
  | VObj props =>
      match assoc "toString" props with
      | Some _ => Throw (TypeError "Cannot convert object to primitive value")
      | None => Ok "[object Object]"
      end
  | VFun n => Ok ("function " ++ n ++ "() { [native code] }")
  end.

(** [Array.prototype.find] with a callback that may throw. *)
Fixpoint find_first (p : value -> Result bool) (items : list value)
  : Result value :=
  match items with
  | [] => Ok VUndefined
  | t :: rest =>
      match p t with
      | Throw e => Throw e
      | Ok true => Ok t
      | Ok false => find_first p rest
      end
  end.

(** Calling [.find(cb)] on [v]: only arrays have the method. *)
Definition call_find (what : string) (v : value) (p : value -> Result bool)
  : Result value :=
  match v with
  | VArr items => find_first p items
  | _ => Throw (TypeError (what ++ " is not a function"))
  end.

(** The properties every plain object inherits from [Object.prototype]
    (V8): the built-in methods, [constructor], which is the function
    [Object], and the accessor [__proto__], which yields the prototype
    object itself (shown here by its JSON-visible content). *)
Definition object_prototype (k : string) : option value :=
  if (k =? "constructor")%string then Some (VFun "Object")
  else if (k =? "__proto__")%string then Some (VObj [])
  else if existsb (String.eqb k)
            ["__defineGetter__"; "__defineSetter__"; "hasOwnProperty";
             "__lookupGetter__"; "__lookupSetter__"; "isPrototypeOf";
             "propertyIsEnumerable"; "toString"; "valueOf";
             "toLocaleString"]
       then Some (VFun k)
       else None.

(** [obj[key]] on a plain object with a computed key: own properties
    first, then the prototype chain. *)
Definition get_computed (props : list (string * value)) (key : value)
  : Result value :=
  rbind (to_string key)
        (fun k => Ok (match assoc k props with
                      | Some v => v
                      | None => match object_prototype k with
                                | Some v => v
                                | None => VUndefined
                                end
                      end)).

(** ** FHIRHelper: the resource normalizers *)

Section Normalizers.
Local Open Scope result_scope.

(** [t => t.system === 'phone'] *)
Definition is_phone (t : value) : Result bool :=
  system <- field t "system" ;;
  Ok (is_str system "phone").

Definition extractPatientInfo (patient : value) : Result value :=
  names <- field patient "name" ;;
  name <- opt_index0 names ;;
  id <- field patient "id" ;;
  given <- opt_field name "given" ;;
  given0 <- opt_index0 given ;;
  family <- opt_field name "family" ;;
  birthDate <- field patient "birthDate" ;;
  gender <- field patient "gender" ;;
  telecom <- field patient "telecom" ;;
  phone <- (if nullish telecom then Ok VUndefined
            else found <- call_find "patient.telecom?.find" telecom is_phone ;;
                 opt_field found "value") ;;
  addresses <- field patient "address" ;;
  address <- opt_index0 addresses ;;
  Ok (VObj [("id", id);
            ("firstName", js_or given0 (VStr ""));
            ("lastName", js_or family (VStr ""));
            ("birthDate", birthDate);
            ("gender", gender);
            ("phone", phone);
            ("address", address)]).

Definition extractCoverageInfo (coverage : value) : Result value :=
  entry <- field coverage "entry" ;;
  if negb (truthy entry) then Ok VNull
  else
    len <- field entry "length" ;;
    if is_num len 0 then Ok VNull
    else
      entry0 <- index0 entry ;;
      coverageResource <- field entry0 "resource" ;;
      id <- field coverageResource "id" ;;
      status <- field coverageResource "status" ;;
      subscriberId <- field coverageResource "subscriberId" ;;
      payor <- field coverageResource "payor" ;;
      period <- field coverageResource "period" ;;
      Ok (VObj [("id", id);
                ("status", status);
                ("subscriberId", subscriberId);
                ("payor", payor);
                ("period", period)]).

End Normalizers.

(** ** InsuranceVerificationService *)

Definition payer (name : string) : value :=
  VObj [("name", VStr name);
        ("active", VBool true);
        ("verificationEndpoint", VStr "mock")].

Definition mockPayers : list (string * value) :=
  [("BCBS001", payer "Blue Cross Blue Shield");
   ("AETNA001", payer "Aetna");
   ("UHC001", payer "United Healthcare")].

Section Eligibility.
Local Open Scope result_scope.

(** [coverageData.payor?.[0]?.identifier?.[0]?.value] *)
Definition payer_id (coverageData : value) : Result value :=
  payor <- field coverageData "payor" ;;
  payor0 <- opt_index0 payor ;;
  identifier <- opt_field payor0 "identifier" ;;
  identifier0 <- opt_index0 identifier ;;
  opt_field identifier0 "value".

End Eligibility.

Definition payer_not_recognized : value :=
  VObj [("status", VStr "error");
        ("message", VStr "Payer not recognized");
        ("eligible", VBool false)].

Definition benefits : value :=
  VArr [VObj [("service", VStr "Office Visit");
              ("coverage", VStr "Covered");
              ("copay", VStr "$25.00")];
        VObj [("service", VStr "Preventive Care");
              ("coverage", VStr "Covered 100%");
              ("copay", VStr "$0.00")]].

(** The success report, given the three things it is not fixed in: the
    outcome of [Math.random() > 0.2], [payer.name] and the time stamp. *)
Definition eligibility_report (eligible : bool) (payerName : value)
           (verificationDate : string) : value :=
  VObj [("status", VStr "success");
        ("eligible", VBool eligible);
        ("payerName", payerName);
        ("effectiveDate", VStr "2024-01-01");
        ("terminationDate", VStr "2024-12-31");
        ("copay", VStr "$25.00");
        ("deductible", VStr "$1,500.00");
        ("deductibleMet", VStr "$450.00");
        ("benefits", benefits);
        ("verificationDate", VStr verificationDate)].

(** ** The environment and the effects of a request *)

(** What [axios.get] does with a URL: resolve with [response.data], or
    reject with an error that may carry [response.status]. *)
Inductive AxiosOutcome : Type :=
| Resolved (data : value)
| Rejected (response_status : option Z) (message : string).

(** The remote server answers by URL; the [n]-th call of [Math.random]
    and of [new Date().toISOString()] yield [Math_random n] and
    [Date_toISOString n] (doubles are abstracted by rationals). *)
Record Env : Type := {
  axios_get : string -> AxiosOutcome;
  Math_random : nat -> Q;
  Date_toISOString : nat -> string
}.

Inductive Event : Type :=
| HttpGet (url : string)
| ConsoleError (text : string)
| SetTimeout (ms : Z).

(** [trace] has the latest event first. *)
Record State : Type := {
  random_calls : nat;
  date_calls : nat;
  trace : list Event
}.

Definition M (A : Type) : Type := Env -> State -> Result A * State.

Definition ret {A} (a : A) : M A := fun _ st => (Ok a, st).

Definition throw {A} (e : Exn) : M A := fun _ st => (Throw e, st).

Definition mbind {A B} (m : M A) (k : A -> M B) : M B :=
  fun env st =>
    match m env st with
    | (Ok a, st') => k a env st'
    | (Throw e, st') => (Throw e, st')
    end.

(** [try { m } catch (error) { h error }]: effects of [m] up to the
    [throw] stay. *)
Definition try_catch {A} (m : M A) (h : Exn -> M A) : M A :=
  fun env st =>
    match m env st with
    | (Ok a, st') => (Ok a, st')
    | (Throw e, st') => h e env st'
    end.

Definition lift {A} (r : Result A) : M A := fun _ st => (r, st).

Definition log (ev : Event) (st : State) : State :=
  {| random_calls := random_calls st;
     date_calls := date_calls st;
     trace := ev :: trace st |}.

Definition emit (ev : Event) : M unit := fun _ st => (Ok tt, log ev st).

Definition axios_get_data (url : string) : M value :=
  fun env st =>
    (match axios_get env url with
     | Resolved data => Ok data
     | Rejected status message => Throw (AxiosError status message)
     end, log (HttpGet url) st).

Definition math_random : M Q :=
  fun env st =>
    (Ok (Math_random env (random_calls st)),
     {| random_calls := S (random_calls st);
        date_calls := date_calls st;
        trace := trace st |}).

Definition date_now : M string :=
  fun env st =>
    (Ok (Date_toISOString env (date_calls st)),
     {| random_calls := random_calls st;
        date_calls := S (date_calls st);
        trace := trace st |}).

Declare Scope m_scope.
Delimit Scope m_scope with M.
Notation "x <- c ;; k" := (mbind c (fun x => k))
  (at level 61, c at next level, right associativity) : m_scope.
Notation "c ;; k" := (mbind c (fun _ => k))
  (at level 61, right associativity) : m_scope.

Section Effects.
Local Open Scope m_scope.

(** [r > 0.2] *)
Definition above_a_fifth (r : Q) : bool := negb (Qle_bool r (2 # 10)).

Definition verifyEligibility (patientData coverageData : value) : M value :=
  emit (SetTimeout 1000) ;;
  payerId <- lift (payer_id coverageData) ;;
  payer <- lift (get_computed mockPayers payerId) ;;
  if negb (truthy payer) then ret payer_not_recognized
  else
    r <- math_random ;;
    payerName <- lift (field payer "name") ;;
    now <- date_now ;;
    ret (eligibility_report (above_a_fifth r) payerName now).

Definition FHIR_BASE_URL : string :=
  "https://launch.smarthealthit.org/v/r4/fhir".

Definition patient_url (id : string) : string :=
  FHIR_BASE_URL ++ "/Patient/" ++ id.

Definition coverage_url (id : string) : string :=
  FHIR_BASE_URL ++ "/Coverage?patient=" ++ id.

Definition not_found_message (id : string) : string :=
  "Patient with ID '" ++ id ++ "' not found. Try searching for patients first.".

Definition getPatient (patientId : value) : M value :=
  try_catch
    (id <- lift (to_string patientId) ;;
     axios_get_data (patient_url id))
    (fun error =>
       if is_num (exn_response_status error) 404 then
         id <- lift (to_string patientId) ;;
         emit (ConsoleError ("Patient " ++ id ++ " not found on server "
                             ++ FHIR_BASE_URL)) ;;
         id' <- lift (to_string patientId) ;;
         throw (JsError (not_found_message id'))
       else
         emit (ConsoleError ("Error fetching patient: "
                             ++ exn_message error)) ;;
         throw (JsError "Failed to fetch patient data")).

Definition empty_bundle : value := VObj [("entry", VArr [])].

Definition getCoverage (patientId : value) : M value :=
  try_catch
    (id <- lift (to_string patientId) ;;
     axios_get_data (coverage_url id))
    (fun error =>
       emit (ConsoleError ("Error fetching coverage: "
                           ++ exn_message error)) ;;
       ret empty_bundle).

(** ** The routes *)

Record Response : Type := { status : Z; body : value }.

(** [res.status(code).json(payload)]; a bare [res.json] answers 200. *)
Definition respond (code : Z) (payload : value) : Response :=
  {| status := code; body := payload |}.

Definition failure (message : string) : value :=
  VObj [("success", VBool false); ("error", VStr message)].

(** [const { k } = req.body] *)
Definition destructure (req_body : value) (k : string) : Result value :=
  match req_body with
  | VUndefined | VNull =>
      Throw (TypeError ("Cannot destructure property '" ++ k
                        ++ "' of 'req.body' as it is "
                        ++ kind_name req_body ++ "."))
  | _ => field req_body k
  end.

(** [GET /api/patient/:id] *)
Definition get_api_patient (id : string) : M Response :=
  try_catch
    (patient <- getPatient (VStr id) ;;
     patientInfo <- lift (extractPatientInfo patient) ;;
     ret (respond 200 (VObj [("success", VBool true);
                             ("patient", patientInfo)])))
    (fun error => ret (respond 404 (failure (exn_message error)))).

(** [GET /api/coverage/:patientId] *)
Definition get_api_coverage (patientId : string) : M Response :=
  try_catch
    (coverage <- getCoverage (VStr patientId) ;;
     coverageInfo <- lift (extractCoverageInfo coverage) ;;
     ret (respond 200 (VObj [("success", VBool true);
                             ("coverage", coverageInfo)])))
    (fun error => ret (respond 500 (failure (exn_message error)))).

Definition no_coverage_found : value :=
  VObj [("status", VStr "no_coverage");
        ("message", VStr "No insurance coverage found for patient")].

(** [POST /api/verify-insurance] *)
Definition post_api_verify_insurance (req_body : value) : M Response :=
  try_catch
    (patientId <- lift (destructure req_body "patientId") ;;
     if negb (truthy patientId) then
       ret (respond 400 (failure "Patient ID is required"))
     else
       patient <- getPatient patientId ;;
       coverage <- getCoverage patientId ;;
       patientInfo <- lift (extractPatientInfo patient) ;;
       coverageInfo <- lift (extractCoverageInfo coverage) ;;
       if negb (truthy coverageInfo) then
         ret (respond 200 (VObj [("success", VBool true);
                                 ("verification", no_coverage_found);
                                 ("patient", patientInfo)]))
       else
         verification <- verifyEligibility patientInfo coverageInfo ;;
         ret (respond 200 (VObj [("success", VBool true);
                                 ("patient", patientInfo);
                                 ("coverage", coverageInfo);
                                 ("verification", verification)])))
    (fun error => ret (respond 500 (failure (exn_message error)))).

(** One turn of the loop of [POST /api/verify-batch]: the entry it
    pushes. *)
Definition batch_item (patientId : value) : M value :=
  try_catch
    (patient <- getPatient patientId ;;
     coverage <- getCoverage patientId ;;
     patientInfo <- lift (extractPatientInfo patient) ;;
     coverageInfo <- lift (extractCoverageInfo coverage) ;;
     verification <- (if truthy coverageInfo
                      then verifyEligibility patientInfo coverageInfo
                      else ret VNull) ;;
     ret (VObj [("patientId", patientId);
                ("patient", patientInfo);
                ("coverage", coverageInfo);
                ("verification",
                 js_or verification
                       (VObj [("status", VStr "no_coverage")]))]))
    (fun error =>
       ret (VObj [("patientId", patientId);
                  ("error", VStr (exn_message error))])).

(** [for (const patientId of patientIds) { ... results.push(...) }] *)
Fixpoint batch_loop (patientIds : list value) (results : list value)
  : M (list value) :=
  match patientIds with
  | [] => ret results
  | patientId :: rest =>
      entry <- batch_item patientId ;;
      batch_loop rest (results ++ [entry])%list
  end.

(** [POST /api/verify-batch] *)
Definition post_api_verify_batch (req_body : value) : M Response :=
  try_catch
    (patientIds <- lift (destructure req_body "patientIds") ;;
     invalid <- (if negb (is_array patientIds) then ret true
                 else len <- lift (field patientIds "length") ;;
                      ret (is_num len 0)) ;;
     if (invalid : bool) then
       ret (respond 400 (failure "Array of patient IDs is required"))
     else
       results <- batch_loop (array_items patientIds) [] ;;
       ret (respond 200 (VObj [("success", VBool true);
                               ("results", VArr results)])))
    (fun error => ret (respond 500 (failure (exn_message error)))).

End Effects.

(** ** The remaining routes *)

(** [encodeURIComponent] on the UTF-8 bytes of a string: letters, digits
    and [- _ . ! ~ * ' ( )] stay, every other byte becomes [%XX] with
    upper-case hexadecimal digits. *)
Definition uri_unreserved (c : ascii) : bool :=
  let n := nat_of_ascii c in
  (Nat.leb 48 n && Nat.leb n 57)
  || (Nat.leb 65 n && Nat.leb n 90)
  || (Nat.leb 97 n && Nat.leb n 122)
  || existsb (Ascii.eqb c)
       ["-"; "_"; "."; "!"; "~"; "*"; "'"; "("; ")"]%char.

Definition hex_digit (n : nat) : ascii :=
  nth n (list_ascii_of_string "0123456789ABCDEF") "0"%char.

Definition percent_encode (c : ascii) : string :=
  String "%"
    (String (hex_digit (Nat.div (nat_of_ascii c) 16))
       (String (hex_digit (Nat.modulo (nat_of_ascii c) 16)) EmptyString)).

Fixpoint encode_uri_component (s : string) : string :=
  match s with
  | EmptyString => EmptyString
  | String c rest =>
      (if uri_unreserved c then String c EmptyString else percent_encode c)
      ++ encode_uri_component rest
  end.

Definition encodeURIComponent (v : value) : Result string :=
  rbind (to_string v) (fun s => Ok (encode_uri_component s)).

Definition is_undefined (v : value) : bool :=
  match v with
  | VUndefined => true
  | _ => false
  end.

(** [Array.prototype.map] with a callback that may throw. *)
Fixpoint map_result (f : value -> Result value) (items : list value)
  : Result (list value) :=
  match items with
  | [] => Ok []
  | x :: rest =>
      rbind (f x)
            (fun y => rbind (map_result f rest) (fun ys => Ok (y :: ys)))
  end.

(** Calling [.map(cb)] on [v]: only arrays have the method. *)
Definition call_map (what : string) (v : value) (f : value -> Result value)
  : Result value :=
  match v with
  | VArr items => rbind (map_result f items) (fun ys => Ok (VArr ys))
  | _ => Throw (TypeError (what ++ " is not a function"))
  end.

(** [const { k } = req.query] *)
Definition destructure_query (query : value) (k : string) : Result value :=
  match query with
  | VUndefined | VNull =>
      Throw (TypeError ("Cannot destructure property '" ++ k
                        ++ "' of 'req.query' as it is "
                        ++ kind_name query ++ "."))
  | _ => field query k
  end.

Section Routes.
Local Open Scope m_scope.

(** [GET /health] *)
Definition get_health : M Response :=
  ret (respond 200 (VObj [("status", VStr "OK");
                          ("service",
                           VStr "EHR Insurance Verification API")])).

(** [if (v) { searchUrl += `&k=${encodeURIComponent(v)}`; }] *)
Definition add_parameter (searchUrl k : string) (v : value) : M string :=
  if truthy v then
    encoded <- lift (encodeURIComponent v) ;;
    ret (searchUrl ++ "&" ++ k ++ "=" ++ encoded)
  else ret searchUrl.

(** [entry => FHIRHelper.extractPatientInfo(entry.resource)] *)
Definition entry_patient (entry : value) : Result value :=
  rbind (field entry "resource") extractPatientInfo.

(** [GET /api/patients/search] *)
Definition get_api_patients_search (query : value) : M Response :=
  try_catch
    (name <- lift (destructure_query query "name") ;;
     family <- lift (destructure_query query "family") ;;
     given <- lift (destructure_query query "given") ;;
     limit0 <- lift (destructure_query query "limit") ;;
     count <- lift (to_string (if is_undefined limit0 then VNum 10
                               else limit0)) ;;
     searchUrl <- add_parameter (FHIR_BASE_URL ++ "/Patient?_count=" ++ count)
                                "name" name ;;
     searchUrl <- add_parameter searchUrl "family" family ;;
     searchUrl <- add_parameter searchUrl "given" given ;;
     data <- axios_get_data searchUrl ;;
     entry <- lift (field data "entry") ;;
     mapped <- (if nullish entry then ret VUndefined
                else lift (call_map "response.data.entry?.map" entry
                                    entry_patient)) ;;
     total <- lift (field data "total") ;;
     count_of_patients <- lift (field (js_or mapped (VArr [])) "length") ;;
     ret (respond 200 (VObj [("success", VBool true);
                             ("patients", js_or mapped (VArr []));
                             ("total", js_or total count_of_patients);
                             ("searchUrl", VStr searchUrl)])))
    (fun error => ret (respond 500 (failure (exn_message error)))).

End Routes.

(** * Vocabulary of the properties *)

(** [get v k] and [get0 v] are [v?.k] and [v?.[0]] as total functions:
    the property when it can be read, [undefined] otherwise. *)
Definition get (v : value) (k : string) : value :=
  match field v k with
  | Ok w => w
  | Throw _ => VUndefined
  end.

Definition get0 (v : value) : value :=
  match index0 v with
  | Ok w => w
  | Throw _ => VUndefined
  end.

(** A [telecom] field: missing, or an array of contact points (no
    [null] among them). *)
Definition contact_points (telecom : value) : bool :=
  match telecom with
  | VUndefined | VNull => true
  | VArr items => forallb (fun t => negb (nullish t)) items
  | _ => false
  end.

(** A raw Patient resource: a JSON object with such a [telecom].  Every
    other field may be missing or of any shape. *)
Definition patient_resource (patient : value) : bool :=
  match patient with
  | VObj props => contact_points (own "telecom" props)
  | _ => false
  end.

(** The telecom entry the spec selects: the first whose [system] is
    ["phone"]. *)
Definition phone_entry (t : value) : bool := is_str (get t "system") "phone".

Definition first_phone (telecom : value) : value :=
  match List.find phone_entry (array_items telecom) with
  | Some t => get t "value"
  | None => VUndefined
  end.

Definition sample_patient : value :=
  VObj [("id", VStr "p1");
        ("telecom", VArr [VObj [("system", VStr "email");
                                ("value", VStr "a@example.org")];
                          VObj [("system", VStr "phone");
                                ("value", VStr "555-0100")];
                          VObj [("system", VStr "phone");
                                ("value", VStr "555-0199")]])].

(** A Coverage search bundle: a JSON object whose [entry], when there is
    one, is an array, and whose first entry carries its resource. *)
Definition coverage_bundle (bundle : value) : bool :=
  match bundle with
  | VObj props =>
      match own "entry" props with
      | VUndefined => true
      | VArr [] => true
      | VArr (entry0 :: _) => negb (nullish (get entry0 "resource"))
      | _ => false
      end
  | _ => false
  end.

(** The record made of one Coverage resource. *)
Definition coverage_record (resource : value) : value :=
  VObj [("id", get resource "id");
        ("status", get resource "status");
        ("subscriberId", get resource "subscriberId");
        ("payor", get resource "payor");
        ("period", get resource "period")].

Definition sample_bundle : value :=
  VObj [("resourceType", VStr "Bundle");
        ("entry",
         VArr [VObj [("resource",
                      VObj [("id", VStr "cov-1");
                            ("status", VStr "active");
                            ("payor", VArr [VObj [("display", VStr "Aetna")]])])];
               VObj [("resource", VObj [("id", VStr "cov-2")])]])].

(** The calls of [verifyEligibility] a trace records: the method starts
    by setting the one timer of the program. *)
Fixpoint eligibility_calls (events : list Event) : nat :=
  match events with
  | [] => O
  | SetTimeout _ :: rest => S (eligibility_calls rest)
  | _ :: rest => eligibility_calls rest
  end.

Definition drawn (st : State) : State :=
  {| random_calls := S (random_calls st);
     date_calls := S (date_calls st);
     trace := SetTimeout 1000 :: trace st |}.

(** A coverage record whose payor carries the given identifier value. *)
Definition coverage_of_payer (payerId : value) : value :=
  VObj [("id", VStr "cov-1");
        ("status", VStr "active");
        ("subscriberId", VStr "S-100");
        ("payor", VArr [VObj [("identifier",
                               VArr [VObj [("value", payerId)]])]]);
        ("period", VUndefined)].

Definition idle_env : Env :=
  {| axios_get := fun _ => Rejected None "connect ECONNREFUSED";
     Math_random := fun _ => 1 # 2;
     Date_toISOString := fun _ => "2024-05-01T00:00:00.000Z" |}.

Definition blank : State :=
  {| random_calls := 0; date_calls := 0; trace := [] |}.

Definition same_draws (st st' : State) : Prop :=
  random_calls st' = random_calls st /\ date_calls st' = date_calls st.

(** The bundle [getCoverage] hands on for an identifier. *)
Definition coverage_or_empty (env : Env) (id : string) : value :=
  match axios_get env (coverage_url id) with
  | Resolved data => data
  | Rejected _ _ => empty_bundle
  end.

Definition not_found_env : Env :=
  {| axios_get := fun _ => Rejected (Some 404) "Request failed with status code 404";
     Math_random := fun _ => 1 # 2;
     Date_toISOString := fun _ => "2024-05-01T00:00:00.000Z" |}.

(** A gateway that knows the patients ["p1"], with a Blue Cross
    coverage, and ["p2"], whose coverage search fails; it reports 404 for
    ["missing-id"] and is out of reach for anything else. *)
Definition clinic_axios_get (url : string) : AxiosOutcome :=
  if (url =? patient_url "p1")%string then
    Resolved (VObj [("id", VStr "p1");
                    ("name", VArr [VObj [("given", VArr [VStr "Ann"]);
                                         ("family", VStr "Lee")]])])
  else if (url =? coverage_url "p1")%string then
    Resolved (VObj [("entry",
                     VArr [VObj [("resource",
                                  coverage_of_payer (VStr "BCBS001"))]])])
  else if (url =? patient_url "p2")%string then
    Resolved (VObj [("id", VStr "p2")])
  else if (url =? patient_url "missing-id")%string then
    Rejected (Some 404%Z) "Request failed with status code 404"
  else Rejected None "connect ECONNREFUSED".

Definition clinic_env : Env :=
  {| axios_get := clinic_axios_get;
     Math_random := fun _ => 1 # 2;
     Date_toISOString := fun _ => "2024-05-01T00:00:00.000Z" |}.

(** The environment in which [Math.random] and the clock yield [r] and
    [now] at every call. *)
Definition with_draws (env : Env) (r : Q) (now : string) : Env :=
  {| axios_get := axios_get env;
     Math_random := fun _ => r;
     Date_toISOString := fun _ => now |}.

Definition value_of (run : Result value * State) : value :=
  match fst run with
  | Ok v => v
  | Throw _ => VUndefined
  end.

(** The entry of one identifier on its own: what the loop body pushes
    for it when it runs alone from the blank state and draws [r] and
    [now]. *)
Definition item_entry (env : Env) (patientId : value) (r : Q) (now : string)
  : value :=
  value_of (batch_item patientId (with_draws env r now) blank).

Definition entry_with (env : Env) (item : value * (Q * string)) : value :=
  item_entry env (fst item) (fst (snd item)) (snd (snd item)).

Definition keys (v : value) : list string :=
  match v with
  | VObj props => map fst props
  | _ => []
  end.

(** [error.response?.status === 404] *)
Definition is_404 (response_status : option Z) : bool :=
  match response_status with
  | Some s => (s =? 404)%Z
  | None => false
  end.

(** What [verifyEligibility] returns for a coverage record, as a function
    of the record, of the number [Math.random] yields and of the time
    stamp (the method takes nothing else from its environment). *)
Definition eligibility_outcome (coverageInfo : value) (r : Q) (now : string)
  : Result value :=
  match rbind (payer_id coverageInfo) (get_computed mockPayers) with
  | Throw e => Throw e
  | Ok found =>
      if truthy found
      then Ok (eligibility_report (above_a_fifth r) (get found "name") now)
      else Ok payer_not_recognized
  end.

Definition failure_entry (id message : string) : value :=
  VObj [("patientId", VStr id); ("error", VStr message)].

Definition success_entry (id : string)
           (patientInfo coverageInfo verification : value) : value :=
  VObj [("patientId", VStr id);
        ("patient", patientInfo);
        ("coverage", coverageInfo);
        ("verification", verification)].

(** The entry batch verification owes the identifier [id], told from what
    the gateway answers to the patient request and to the coverage
    request for [id], and from the random number and the time stamp
    drawn for it.  A rejected patient fetch gives a failure entry with
    [getPatient]'s message, and so does a patient, a coverage bundle or a
    payer identifier that cannot be processed; otherwise the entry holds
    the patient record, the coverage record and the verification, which
    is [{status: "no_coverage"}] when the coverage record is [null] (a
    rejected coverage fetch counts as the empty bundle). *)
Definition entry_for (id : string) (patient_answer coverage_answer : AxiosOutcome)
           (r : Q) (now : string) : value :=
  match patient_answer with
  | Rejected response_status _ =>
      failure_entry id (if is_404 response_status then not_found_message id
                        else "Failed to fetch patient data")
  | Resolved patient =>
      match extractPatientInfo patient with
      | Throw e => failure_entry id (exn_message e)
      | Ok patientInfo =>
          match extractCoverageInfo
                  match coverage_answer with
                  | Resolved bundle => bundle
                  | Rejected _ _ => empty_bundle
                  end
          with
          | Throw e => failure_entry id (exn_message e)
          | Ok coverageInfo =>
              if truthy coverageInfo then
                match eligibility_outcome coverageInfo r now with
                | Ok verification =>
                    success_entry id patientInfo coverageInfo verification
                | Throw e => failure_entry id (exn_message e)
                end
              else success_entry id patientInfo coverageInfo
                                 (VObj [("status", VStr "no_coverage")])
          end
      end
  end.

(** A telecom array that [find] can scan: no [undefined] or [null] entry
    comes before the first entry whose [system] is ["phone"]. *)
Fixpoint scannable (items : list value) : bool :=
  match items with
  | [] => true
  | t :: rest =>
      if nullish t then false
      else if phone_entry t then true
      else scannable rest
  end.

Definition readable_telecom (telecom : value) : bool :=
  match telecom with
  | VUndefined | VNull => true
  | VArr items => scannable items
  | _ => false
  end.

(** The HTTP requests of a trace, oldest first. *)
Fixpoint requested (events : list Event) : list string :=
  match events with
  | [] => []
  | HttpGet url :: rest => (requested rest ++ [url])%list
  | _ :: rest => requested rest
  end.

(** What a piece of code may have added to a state: at most [gets] HTTP
    requests, and at most [calls] timers, random numbers and time
    stamps. *)
Definition within (gets calls : nat) (st st' : State) : Prop :=
  (List.length (requested (trace st'))
   <= List.length (requested (trace st)) + gets)%nat
  /\ (eligibility_calls (trace st')
      <= eligibility_calls (trace st) + calls)%nat
  /\ (random_calls st' <= random_calls st + calls)%nat
  /\ (date_calls st' <= date_calls st + calls)%nat.

(** A gateway with one more patient, ["p3"], whose resource has a
    telephone number where the telecom array should be. *)
Definition ward_axios_get (url : string) : AxiosOutcome :=
  if (url =? patient_url "p3")%string then
    Resolved (VObj [("id", VStr "p3"); ("telecom", VStr "555-0100")])
  else clinic_axios_get url.

Definition ward_env : Env :=
  {| axios_get := ward_axios_get;
     Math_random := fun _ => 1 # 2;
     Date_toISOString := fun _ => "2024-05-01T00:00:00.000Z" |}.

(** A query parameter as the search route expects it: absent or a
    string. *)
Definition text_or_absent (v : value) : bool :=
  match v with
  | VUndefined | VStr _ => true
  | _ => false
  end.

Definition search_query (query : value) : bool :=
  negb (nullish query)
  && text_or_absent (get query "name")
  && text_or_absent (get query "family")
  && text_or_absent (get query "given")
  && text_or_absent (get query "limit").

(** The URL with one more search parameter, when it is given and not
    empty. *)
Definition with_parameter (url k : string) (v : value) : string :=
  match v with
  | VStr s => if (s =? "")%string then url
              else url ++ "&" ++ k ++ "=" ++ encode_uri_component s
  | _ => url
  end.

Definition search_url (query : value) : string :=
  with_parameter
    (with_parameter
       (with_parameter
          (FHIR_BASE_URL ++ "/Patient?_count="
           ++ match get query "limit" with
              | VStr limit => limit
              | _ => "10"
              end)
          "name" (get query "name"))
       "family" (get query "family"))
    "given" (get query "given").

(** A patient registry: the search for the name ["lee"] finds two
    patients, the search for ["doe"] finds a bundle whose second entry
    has no resource, the search for ["nobody"] finds nothing, and any
    other request fails. *)
Definition registry_axios_get (url : string) : AxiosOutcome :=
  if (url =? FHIR_BASE_URL ++ "/Patient?_count=10&name=lee")%string then
    Resolved (VObj [("total", VNum 2);
                    ("entry", VArr [VObj [("resource", sample_patient)];
                                    VObj [("resource",
                                           VObj [("id", VStr "p2")])]])])
  else if (url =? FHIR_BASE_URL ++ "/Patient?_count=10&name=doe")%string then
    Resolved (VObj [("entry", VArr [VObj [("resource", sample_patient)];
                                    VObj [("fullUrl", VStr "urn:x")]])])
  else if (url =? FHIR_BASE_URL ++ "/Patient?_count=10&name=nobody")%string
  then Resolved (VObj [("total", VNum 0)])
  else Rejected None "connect ECONNREFUSED".

Definition registry_env : Env :=
  {| axios_get := registry_axios_get;
     Math_random := fun _ => 1 # 2;
     Date_toISOString := fun _ => "2024-05-01T00:00:00.000Z" |}.

(** * Properties *)

(** ** Reading a property that may be missing *)

Lemma opt_field_get (v : value) (k : string) : opt_field v k = Ok (get v k).
Proof. destruct v; reflexivity. Qed.

Lemma opt_index0_get0 (v : value) : opt_index0 v = Ok (get0 v).
Proof. destruct v; reflexivity. Qed.

Lemma field_get (v : value) (k : string) :
  nullish v = false -> field v k = Ok (get v k).
Proof. destruct v; simpl; intros H; try discriminate; reflexivity. Qed.

Lemma index0_get0 (v : value) : nullish v = false -> index0 v = Ok (get0 v).
Proof. destruct v; simpl; intros H; try discriminate; reflexivity. Qed.

Lemma field_obj (props : list (string * value)) (k : string) :
  field (VObj props) k = Ok (own k props).
Proof. reflexivity. Qed.

(** ** extractPatientInfo *)

Lemma find_first_phone (items : list value) :
  forallb (fun t => negb (nullish t)) items = true ->
  find_first is_phone items
  = Ok (match List.find phone_entry items with
        | Some t => t
        | None => VUndefined
        end).
Proof.
  induction items as [|t rest IH]; simpl; intros Hok; [reflexivity|].
  apply andb_true_iff in Hok. destruct Hok as [Ht Hrest].
  apply negb_true_iff in Ht.
  unfold is_phone, phone_entry. rewrite (field_get _ _ Ht). simpl.
  destruct (is_str (get t "system") "phone"); [reflexivity|].
  apply IH. exact Hrest.
Qed.

Lemma telecom_phone (telecom : value) :
  contact_points telecom = true ->
  (if nullish telecom then Ok VUndefined
   else rbind (call_find "patient.telecom?.find" telecom is_phone)
              (fun found => opt_field found "value"))
  = Ok (first_phone telecom).
Proof.
  destruct telecom; simpl; intros H; try discriminate; try reflexivity.
  rewrite (find_first_phone _ H). simpl. rewrite opt_field_get.
  unfold first_phone. simpl.
  destruct (List.find phone_entry items); reflexivity.
Qed.

Lemma extractPatientInfo_resource (props : list (string * value)) :
  contact_points (own "telecom" props) = true ->
  extractPatientInfo (VObj props)
  = Ok (VObj [("id", own "id" props);
              ("firstName",
               js_or (get0 (get (get0 (own "name" props)) "given"))
                     (VStr ""));
              ("lastName",
               js_or (get (get0 (own "name" props)) "family") (VStr ""));
              ("birthDate", own "birthDate" props);
              ("gender", own "gender" props);
              ("phone", first_phone (own "telecom" props));
              ("address", get0 (own "address" props))]).
Proof.
  intros Htel. unfold extractPatientInfo.
  rewrite !field_obj. simpl rbind.
  rewrite opt_index0_get0. simpl rbind.
  rewrite opt_field_get. simpl rbind.
  rewrite opt_index0_get0. simpl rbind.
  rewrite opt_field_get. simpl rbind.
  rewrite (telecom_phone _ Htel). simpl rbind.
  rewrite opt_index0_get0. reflexivity.
Qed.

(** C9.  On every raw patient resource [extractPatientInfo] returns a
    record and does not throw, whatever optional fields are missing.
    [firstName] and [lastName] are the first name entry's [given[0]] and
    [family] and fall back to the empty string (in particular when there
    is no name or no given name); [phone] is the [value] of the first
    telecom entry whose [system] equals ["phone"] and [undefined] when
    there is none; [address] is [address[0]] itself. *)
Theorem extractPatientInfo_total (patient : value) :
  patient_resource patient = true ->
  exists firstName lastName,
    extractPatientInfo patient
    = Ok (VObj [("id", get patient "id");
                ("firstName", firstName);
                ("lastName", lastName);
                ("birthDate", get patient "birthDate");
                ("gender", get patient "gender");
                ("phone", first_phone (get patient "telecom"));
                ("address", get0 (get patient "address"))])
    /\ firstName
       = js_or (get0 (get (get0 (get patient "name")) "given")) (VStr "")
    /\ lastName = js_or (get (get0 (get patient "name")) "family") (VStr "")
    /\ (firstName = VStr "" \/ truthy firstName = true)
    /\ (lastName = VStr "" \/ truthy lastName = true)
    /\ (nullish (get patient "name") = true ->
        firstName = VStr "" /\ lastName = VStr "")
    /\ (nullish (get (get0 (get patient "name")) "given") = true ->
        firstName = VStr "")
    /\ (nullish (get patient "telecom") = true ->
        first_phone (get patient "telecom") = VUndefined)
    /\ (nullish (get patient "address") = true ->
        get0 (get patient "address") = VUndefined)
    /\ (forall a rest, get patient "address" = VArr (a :: rest) ->
        get0 (get patient "address") = a).
Proof.
  destruct patient as [| | | | | |props|]; simpl; try discriminate.
  intros Htel. do 2 eexists.
  split; [apply (extractPatientInfo_resource props Htel)|].
  unfold get. simpl field.
  repeat split.
  - unfold js_or. destruct (truthy _) eqn:E; [right; exact E | left; reflexivity].
  - unfold js_or. destruct (truthy _) eqn:E; [right; exact E | left; reflexivity].
  - destruct (own "name" props); simpl in *; try discriminate; reflexivity.
  - destruct (own "name" props); simpl in *; try discriminate; reflexivity.
  - destruct (match field (get0 (own "name" props)) "given" with
              | Ok w => w | Throw _ => VUndefined end);
      simpl in *; try discriminate; reflexivity.
  - destruct (own "telecom" props); simpl in *; try discriminate; reflexivity.
  - destruct (own "address" props); simpl in *; try discriminate; reflexivity.
  - intros a rest H. rewrite H. reflexivity.
Qed.

Lemma extractPatientInfo_total_witness :
  patient_resource sample_patient = true
  /\ exists info,
       extractPatientInfo sample_patient = Ok info
       /\ get info "firstName" = VStr ""
       /\ get info "phone" = VStr "555-0100"
       /\ get info "address" = VUndefined.
Proof.
  split; [reflexivity|].
  destruct (extractPatientInfo_total sample_patient eq_refl)
    as (firstName & lastName & Hrun & Hfirst & _).
  eexists. split; [exact Hrun|].
  rewrite Hfirst. repeat split.
Defined.

(** ** extractCoverageInfo *)

Lemma extractCoverageInfo_entries (others : list (string * value))
      (entry0 : value) (rest : list value) :
  nullish (get entry0 "resource") = false ->
  own "entry" others = VArr (entry0 :: rest) ->
  extractCoverageInfo (VObj others)
  = Ok (coverage_record (get entry0 "resource")).
Proof.
  intros Hres Hentry. unfold extractCoverageInfo.
  rewrite field_obj, Hentry. simpl.
  assert (H0 : nullish entry0 = false).
  { destruct entry0; try reflexivity; simpl in Hres; discriminate. }
  rewrite (field_get _ "resource" H0). simpl.
  rewrite !(field_get _ _ Hres). reflexivity.
Qed.

(** C8.  On every Coverage search bundle [extractCoverageInfo] returns
    [null] exactly when the entry list is absent or empty.  Otherwise the
    result is the record of [entry[0].resource], with [id], [status],
    [subscriberId], [payor] and [period] copied as they are, and it is the
    same whatever entries follow the first. *)
Theorem extractCoverageInfo_first_entry (bundle : value) :
  coverage_bundle bundle = true ->
  (extractCoverageInfo bundle = Ok VNull
   <-> get bundle "entry" = VUndefined \/ get bundle "entry" = VArr [])
  /\ (forall entry0 rest,
        get bundle "entry" = VArr (entry0 :: rest) ->
        extractCoverageInfo bundle
        = Ok (VObj [("id", get (get entry0 "resource") "id");
                    ("status", get (get entry0 "resource") "status");
                    ("subscriberId",
                     get (get entry0 "resource") "subscriberId");
                    ("payor", get (get entry0 "resource") "payor");
                    ("period", get (get entry0 "resource") "period")])
        /\ forall rest',
            extractCoverageInfo (VObj [("entry", VArr (entry0 :: rest'))])
            = extractCoverageInfo bundle).
Proof.
  destruct bundle as [| | | | | |props|]; simpl; try discriminate.
  unfold get. simpl field.
  destruct (own "entry" props) as [| | | | |items| |] eqn:Hentry;
    try discriminate.
  - intros _. split.
    + split; [intros _; left; reflexivity|].
      intros _. unfold extractCoverageInfo. rewrite field_obj, Hentry.
      reflexivity.
    + intros entry0 rest H. discriminate.
  - destruct items as [|entry0 rest].
    + intros _. split.
      * split; [intros _; right; reflexivity|].
        intros _. unfold extractCoverageInfo. rewrite field_obj, Hentry.
        reflexivity.
      * intros entry0 rest H. discriminate.
    + intros Hres. apply negb_true_iff in Hres.
      pose proof (extractCoverageInfo_entries props entry0 rest Hres Hentry)
        as Hrun.
      split.
      * split.
        -- rewrite Hrun. discriminate.
        -- intros [H|H]; discriminate.
      * intros e r H. injection H as <- <-.
        split; [exact Hrun|].
        intros rest'. rewrite Hrun.
        apply (extractCoverageInfo_entries _ entry0 rest' Hres).
        reflexivity.
Qed.

Lemma extractCoverageInfo_first_entry_witness :
  coverage_bundle sample_bundle = true
  /\ extractCoverageInfo sample_bundle
     = Ok (VObj [("id", VStr "cov-1");
                 ("status", VStr "active");
                 ("subscriberId", VUndefined);
                 ("payor", VArr [VObj [("display", VStr "Aetna")]]);
                 ("period", VUndefined)])
  /\ extractCoverageInfo sample_bundle <> Ok VNull.
Proof.
  split; [reflexivity|].
  destruct (extractCoverageInfo_first_entry sample_bundle eq_refl)
    as [Hnull Hfirst].
  split.
  - apply (Hfirst _ _ eq_refl).
  - intros H. apply Hnull in H. destruct H as [H|H]; discriminate H.
Defined.

(** ** Running effectful code *)

Lemma mbind_ok {A B} (m : M A) (k : A -> M B) env st a st1 :
  m env st = (Ok a, st1) -> mbind m k env st = k a env st1.
Proof. intros H. unfold mbind. rewrite H. reflexivity. Qed.

Lemma mbind_throw {A B} (m : M A) (k : A -> M B) env st e st1 :
  m env st = (Throw e, st1) -> mbind m k env st = (Throw e, st1).
Proof. intros H. unfold mbind. rewrite H. reflexivity. Qed.

Lemma try_catch_ok {A} (m : M A) (h : Exn -> M A) env st a st1 :
  m env st = (Ok a, st1) -> try_catch m h env st = (Ok a, st1).
Proof. intros H. unfold try_catch. rewrite H. reflexivity. Qed.

Lemma try_catch_throw {A} (m : M A) (h : Exn -> M A) env st e st1 :
  m env st = (Throw e, st1) -> try_catch m h env st = h e env st1.
Proof. intros H. unfold try_catch. rewrite H. reflexivity. Qed.

(** ** verifyEligibility *)

Lemma verifyEligibility_run (patientData coverageData : value) env st :
  verifyEligibility patientData coverageData env st
  = match rbind (payer_id coverageData) (get_computed mockPayers) with
    | Throw e => (Throw e, log (SetTimeout 1000) st)
    | Ok payer =>
        if truthy payer
        then (Ok (eligibility_report
                    (above_a_fifth (Math_random env (random_calls st)))
                    (get payer "name")
                    (Date_toISOString env (date_calls st))),
              drawn st)
        else (Ok payer_not_recognized, log (SetTimeout 1000) st)
    end.
Proof.
  unfold verifyEligibility, mbind, emit, lift. simpl.
  destruct (payer_id coverageData) as [payerId|e]; simpl; [|reflexivity].
  destruct (get_computed mockPayers payerId) as [payer|e]; simpl;
    [|reflexivity].
  destruct (truthy payer) eqn:Htruthy; simpl; [|reflexivity].
  assert (Hn : nullish payer = false)
    by (destruct payer; simpl in *; try discriminate; reflexivity).
  rewrite (field_get _ "name" Hn). reflexivity.
Qed.

(** Every call leaves exactly one more timer in the trace. *)
Lemma verifyEligibility_counted (patientData coverageData : value) env st :
  eligibility_calls (trace (snd (verifyEligibility patientData coverageData
                                                   env st)))
  = S (eligibility_calls (trace st)).
Proof.
  rewrite verifyEligibility_run.
  destruct (rbind _ _) as [payer|e]; [|reflexivity].
  destruct (truthy payer); reflexivity.
Qed.

Lemma verifyEligibility_truthy (patientData coverageData : value) env st
      (report : value) st' :
  verifyEligibility patientData coverageData env st = (Ok report, st') ->
  truthy report = true.
Proof.
  rewrite verifyEligibility_run.
  destruct (rbind _ _) as [payer|e]; [|discriminate].
  destruct (truthy payer); intros H; injection H as <- _; reflexivity.
Qed.

(** A payer identifier that is neither in the table nor the name of an
    inherited property is not recognized. *)
Lemma verifyEligibility_unknown_payer (patientData coverageData : value)
      (payerId : value) (key : string) env st :
  payer_id coverageData = Ok payerId ->
  to_string payerId = Ok key ->
  assoc key mockPayers = None ->
  object_prototype key = None ->
  verifyEligibility patientData coverageData env st
  = (Ok payer_not_recognized, log (SetTimeout 1000) st).
Proof.
  intros Hid Hkey Hown Hproto. rewrite verifyEligibility_run.
  rewrite Hid. cbn [rbind]. unfold get_computed. rewrite Hkey. cbn [rbind].
  rewrite Hown, Hproto. reflexivity.
Qed.



(** C6, at an identifier the table does not have.  ["constructor"] is not
    a key of [mockPayers], yet [this.mockPayers[payerId]] finds the
    inherited [Object.prototype.constructor], which is truthy: the payer
    counts as recognized and the report has status ["success"] and the
    function's name, ["Object"], as [payerName], where the spec asks for
    the "Payer not recognized" report. *)
Theorem verifyEligibility_inherited_key (patientData : value) env st :
  assoc "constructor" mockPayers = None
  /\ payer_id (coverage_of_payer (VStr "constructor"))
     = Ok (VStr "constructor")
  /\ verifyEligibility patientData (coverage_of_payer (VStr "constructor"))
                       env st
     = (Ok (eligibility_report
              (above_a_fifth (Math_random env (random_calls st)))
              (VStr "Object")
              (Date_toISOString env (date_calls st))),
        drawn st)
  /\ fst (verifyEligibility patientData
                            (coverage_of_payer (VStr "constructor")) env st)
     <> Ok payer_not_recognized.
Proof.
  split; [reflexivity|]. split; [reflexivity|].
  rewrite verifyEligibility_run. simpl.
  split; [reflexivity|]. discriminate.
Qed.

(** ** The gateway client *)

Lemma getPatient_resolved (patientId : value) (id : string) (data : value)
      env st :
  to_string patientId = Ok id ->
  axios_get env (patient_url id) = Resolved data ->
  getPatient patientId env st = (Ok data, log (HttpGet (patient_url id)) st).
Proof.
  intros Hid Hget.
  unfold getPatient, try_catch, mbind, lift, axios_get_data.
  rewrite Hid, Hget. reflexivity.
Qed.

Lemma getPatient_not_found (patientId : value) (id message : string) env st :
  to_string patientId = Ok id ->
  axios_get env (patient_url id) = Rejected (Some 404%Z) message ->
  getPatient patientId env st
  = (Throw (JsError (not_found_message id)),
     log (ConsoleError ("Patient " ++ id ++ " not found on server "
                        ++ FHIR_BASE_URL))
         (log (HttpGet (patient_url id)) st)).
Proof.
  intros Hid Hget.
  unfold getPatient, try_catch, mbind, lift, axios_get_data, emit, throw.
  rewrite Hid, Hget. reflexivity.
Qed.

Lemma getPatient_failed (patientId : value) (id message : string)
      (response_status : option Z) env st :
  to_string patientId = Ok id ->
  axios_get env (patient_url id) = Rejected response_status message ->
  response_status <> Some 404%Z ->
  getPatient patientId env st
  = (Throw (JsError "Failed to fetch patient data"),
     log (ConsoleError ("Error fetching patient: " ++ message))
         (log (HttpGet (patient_url id)) st)).
Proof.
  intros Hid Hget Hstatus.
  unfold getPatient, try_catch, mbind, lift, axios_get_data, emit, throw.
  rewrite Hid, Hget. simpl.
  destruct response_status as [s|]; simpl; [|reflexivity].
  destruct (Z.eqb_spec s 404) as [->|Hne]; [|reflexivity].
  contradiction Hstatus. reflexivity.
Qed.

Lemma getCoverage_run (patientId : value) (id : string) env st :
  to_string patientId = Ok id ->
  exists st',
    getCoverage patientId env st = (Ok (coverage_or_empty env id), st')
    /\ same_draws st st'
    /\ eligibility_calls (trace st') = eligibility_calls (trace st).
Proof.
  intros Hid.
  unfold getCoverage, try_catch, mbind, lift, axios_get_data, emit, ret,
    coverage_or_empty.
  rewrite Hid.
  destruct (axios_get env (coverage_url id)); simpl;
    eexists; repeat split; reflexivity.
Qed.

Lemma getCoverage_total (patientId : value) env st :
  exists bundle st',
    getCoverage patientId env st = (Ok bundle, st')
    /\ (bundle = empty_bundle
        \/ exists id,
            to_string patientId = Ok id
            /\ axios_get env (coverage_url id) = Resolved bundle).
Proof.
  unfold getCoverage, try_catch, mbind, lift, axios_get_data, emit, ret.
  destruct (to_string patientId) as [id|e]; simpl.
  - destruct (axios_get env (coverage_url id)) as [data|s m] eqn:Hget; simpl;
      do 2 eexists; (split; [reflexivity|]).
    + right. exists id. split; [reflexivity | exact Hget].
    + left. reflexivity.
  - do 2 eexists. split; [reflexivity | left; reflexivity].
Qed.

(** ** POST /api/verify-insurance and GET /api/patient/:id on a failing
       patient fetch *)

Lemma truthy_text (id : string) : id <> "" -> truthy (VStr id) = true.
Proof.
  intros Hne. simpl. destruct (String.eqb_spec id ""); [contradiction|].
  reflexivity.
Qed.

(** C1, as the code has it.  For every patient identifier (a non-empty
    string) whose patient fetch reports upstream HTTP 404,
    [POST /api/verify-insurance] answers with status 500, the one status
    of its [catch], and the body
    [{success: false, error: "Patient with ID '<id>' not found. Try
    searching for patients first."}], whose message holds the
    identifier. *)
Theorem verify_insurance_patient_not_found (req_body : value)
        (id message : string) env st :
  destructure req_body "patientId" = Ok (VStr id) ->
  id <> "" ->
  axios_get env (patient_url id) = Rejected (Some 404%Z) message ->
  exists st',
    post_api_verify_insurance req_body env st
    = (Ok {| status := 500;
             body := VObj [("success", VBool false);
                           ("error",
                            VStr ("Patient with ID '" ++ id
                                  ++ "' not found. Try searching for patients first."))] |},
       st').
Proof.
  intros Hbody Hid Hget. unfold post_api_verify_insurance.
  erewrite try_catch_throw.
  2:{ erewrite mbind_ok by (unfold lift; rewrite Hbody; reflexivity).
      rewrite (truthy_text id Hid). cbn [negb].
      erewrite mbind_throw
        by (apply (getPatient_not_found (VStr id) id _ _ _ eq_refl Hget)).
      reflexivity. }
  eexists. reflexivity.
Qed.

Lemma verify_insurance_patient_not_found_witness :
  exists st',
    post_api_verify_insurance (VObj [("patientId", VStr "missing-id")])
                              not_found_env blank
    = (Ok {| status := 500;
             body := VObj [("success", VBool false);
                           ("error",
                            VStr "Patient with ID 'missing-id' not found. Try searching for patients first.")] |},
       st').
Proof.
  apply (verify_insurance_patient_not_found
           (VObj [("patientId", VStr "missing-id")])
           "missing-id" "Request failed with status code 404"
           not_found_env blank); [reflexivity | discriminate | reflexivity].
Defined.

(** C1 as stated fails: the gateway reports 404 for ["missing-id"] and the
    response status is 500, not 404. *)
Lemma verify_insurance_not_found_status :
  axios_get not_found_env (patient_url "missing-id")
  = Rejected (Some 404%Z) "Request failed with status code 404"
  /\ exists response st',
      post_api_verify_insurance (VObj [("patientId", VStr "missing-id")])
                                not_found_env blank
      = (Ok response, st')
      /\ status response = 500%Z
      /\ status response <> 404%Z.
Proof.
  split; [reflexivity|].
  do 2 eexists. split; [reflexivity|]. split; [reflexivity|]. discriminate.
Qed.

(** C2, as the code has it.  For every patient identifier (a non-empty
    string) whose patient fetch fails with anything but an upstream 404,
    [getPatient] logs the underlying message and throws an error with the
    fixed message "Failed to fetch patient data".
    [POST /api/verify-insurance] answers it with status 500 and that
    fixed message; [GET /api/patient/:id] answers it with status 404, the
    one status of its [catch]. *)
Theorem patient_fetch_failure (req_body : value)
        (id message : string) (response_status : option Z) env st :
  destructure req_body "patientId" = Ok (VStr id) ->
  id <> "" ->
  axios_get env (patient_url id) = Rejected response_status message ->
  response_status <> Some 404%Z ->
  getPatient (VStr id) env st
  = (Throw (JsError "Failed to fetch patient data"),
     log (ConsoleError ("Error fetching patient: " ++ message))
         (log (HttpGet (patient_url id)) st))
  /\ (exists st',
        post_api_verify_insurance req_body env st
        = (Ok {| status := 500;
                 body := VObj [("success", VBool false);
                               ("error",
                                VStr "Failed to fetch patient data")] |},
           st'))
  /\ (exists st',
        get_api_patient id env st
        = (Ok {| status := 404;
                 body := VObj [("success", VBool false);
                               ("error",
                                VStr "Failed to fetch patient data")] |},
           st')).
Proof.
  intros Hbody Hid Hget Hstatus.
  pose proof (getPatient_failed (VStr id) id _ _ env st eq_refl Hget Hstatus)
    as Hfetch.
  split; [exact Hfetch|]. split.
  - unfold post_api_verify_insurance.
    erewrite try_catch_throw.
    2:{ erewrite mbind_ok by (unfold lift; rewrite Hbody; reflexivity).
        rewrite (truthy_text id Hid). cbn [negb].
        erewrite mbind_throw by exact Hfetch. reflexivity. }
    eexists. reflexivity.
  - unfold get_api_patient.
    erewrite try_catch_throw.
    2:{ erewrite mbind_throw by exact Hfetch. reflexivity. }
    eexists. reflexivity.
Qed.

Lemma patient_fetch_failure_witness :
  axios_get idle_env (patient_url "p1") = Rejected None "connect ECONNREFUSED"
  /\ (exists st',
        post_api_verify_insurance (VObj [("patientId", VStr "p1")])
                                  idle_env blank
        = (Ok {| status := 500;
                 body := VObj [("success", VBool false);
                               ("error",
                                VStr "Failed to fetch patient data")] |},
           st'))
  /\ (exists st',
        get_api_patient "p1" idle_env blank
        = (Ok {| status := 404;
                 body := VObj [("success", VBool false);
                               ("error",
                                VStr "Failed to fetch patient data")] |},
           st')).
Proof.
  split; [reflexivity|].
  apply (patient_fetch_failure (VObj [("patientId", VStr "p1")])
           "p1" "connect ECONNREFUSED" None idle_env blank);
    try reflexivity; discriminate.
Defined.

(** C2 as stated fails: on a network failure (no upstream 404)
    [GET /api/patient/:id] answers 404, not 500, and neither route passes
    the underlying message on. *)
Lemma network_failure_answers_404 :
  axios_get idle_env (patient_url "p1") = Rejected None "connect ECONNREFUSED"
  /\ (exists response st',
        get_api_patient "p1" idle_env blank = (Ok response, st')
        /\ status response = 404%Z
        /\ status response <> 500%Z
        /\ get (body response) "error" <> VStr "connect ECONNREFUSED")
  /\ (exists response st',
        post_api_verify_insurance (VObj [("patientId", VStr "p1")])
                                  idle_env blank
        = (Ok response, st')
        /\ status response = 500%Z
        /\ get (body response) "error" <> VStr "connect ECONNREFUSED").
Proof.
  split; [reflexivity|]. split.
  - do 2 eexists. split; [reflexivity|]. split; [reflexivity|].
    split; discriminate.
  - do 2 eexists. split; [reflexivity|]. split; [reflexivity|]. discriminate.
Qed.

(** ** Coverage fetch failures *)

(** C5.  [getCoverage] never throws: it returns what the gateway
    resolved with or else the empty result set.  When the coverage fetch
    is rejected it logs the error and returns [{entry: []}], which
    [extractCoverageInfo] turns into [null] ("no coverage found"), so
    that [GET /api/coverage/:patientId] answers 200 with
    [coverage: null]; and whatever the gateway does, that route never
    answers 404. *)
Theorem coverage_fetch_soft_fail (patientId : string) env st :
  (forall message response_status,
      axios_get env (coverage_url patientId)
      = Rejected response_status message ->
      getCoverage (VStr patientId) env st
      = (Ok (VObj [("entry", VArr [])]),
         log (ConsoleError ("Error fetching coverage: " ++ message))
             (log (HttpGet (coverage_url patientId)) st))
      /\ exists st',
          get_api_coverage patientId env st
          = (Ok {| status := 200;
                   body := VObj [("success", VBool true);
                                 ("coverage", VNull)] |}, st'))
  /\ extractCoverageInfo (VObj [("entry", VArr [])]) = Ok VNull
  /\ (forall anyId : value,
        exists bundle st',
          getCoverage anyId env st = (Ok bundle, st')
          /\ (bundle = VObj [("entry", VArr [])]
              \/ exists id,
                  to_string anyId = Ok id
                  /\ axios_get env (coverage_url id) = Resolved bundle))
  /\ (exists response st',
        get_api_coverage patientId env st = (Ok response, st')
        /\ status response <> 404%Z).
Proof.
  split; [|split; [reflexivity|split]].
  - intros message response_status Hget.
    assert (Hrun : getCoverage (VStr patientId) env st
                   = (Ok (VObj [("entry", VArr [])]),
                      log (ConsoleError ("Error fetching coverage: "
                                         ++ message))
                          (log (HttpGet (coverage_url patientId)) st))).
    { unfold getCoverage, try_catch, mbind, lift, axios_get_data, emit, ret.
      simpl. rewrite Hget. reflexivity. }
    split; [exact Hrun|].
    unfold get_api_coverage.
    erewrite try_catch_ok.
    2:{ erewrite mbind_ok by exact Hrun. reflexivity. }
    eexists. reflexivity.
  - intros anyId. apply getCoverage_total.
  - unfold get_api_coverage, try_catch, mbind.
    destruct (getCoverage_total (VStr patientId) env st)
      as (bundle & st1 & Hrun & _).
    rewrite Hrun. unfold lift, ret.
    destruct (extractCoverageInfo bundle); simpl;
      do 2 eexists; (split; [reflexivity|]); discriminate.
Qed.

Lemma coverage_fetch_soft_fail_witness :
  axios_get idle_env (coverage_url "p1") = Rejected None "connect ECONNREFUSED"
  /\ getCoverage (VStr "p1") idle_env blank
     = (Ok (VObj [("entry", VArr [])]),
        log (ConsoleError "Error fetching coverage: connect ECONNREFUSED")
            (log (HttpGet (coverage_url "p1")) blank))
  /\ exists st',
      get_api_coverage "p1" idle_env blank
      = (Ok {| status := 200;
               body := VObj [("success", VBool true);
                             ("coverage", VNull)] |}, st').
Proof.
  split; [reflexivity|].
  destruct (coverage_fetch_soft_fail "p1" idle_env blank) as [Hsoft _].
  apply (Hsoft "connect ECONNREFUSED" None). reflexivity.
Defined.

(** ** Single verification without coverage *)

Lemma single_without_coverage (req_body : value)
        (id : string) (patient patientInfo : value) env st :
  destructure req_body "patientId" = Ok (VStr id) ->
  id <> "" ->
  axios_get env (patient_url id) = Resolved patient ->
  extractPatientInfo patient = Ok patientInfo ->
  extractCoverageInfo (coverage_or_empty env id) = Ok VNull ->
  exists st',
    post_api_verify_insurance req_body env st
    = (Ok {| status := 200;
             body := VObj [("success", VBool true);
                           ("verification",
                            VObj [("status", VStr "no_coverage");
                                  ("message",
                                   VStr "No insurance coverage found for patient")]);
                           ("patient", patientInfo)] |}, st')
    /\ eligibility_calls (trace st') = eligibility_calls (trace st)
    /\ random_calls st' = random_calls st
    /\ date_calls st' = date_calls st.
Proof.
  intros Hbody Hid Hpatient Hinfo Hcoverage.
  destruct (getCoverage_run (VStr id) id env
              (log (HttpGet (patient_url id)) st) eq_refl)
    as (st2 & Hcov & [Hr Hd] & Hcalls).
  exists st2. split.
  - unfold post_api_verify_insurance.
    erewrite try_catch_ok; [reflexivity|].
    erewrite mbind_ok by (unfold lift; rewrite Hbody; reflexivity).
    rewrite (truthy_text id Hid). cbn [negb].
    erewrite mbind_ok
      by (apply (getPatient_resolved (VStr id) id _ _ _ eq_refl Hpatient)).
    erewrite mbind_ok by exact Hcov.
    erewrite mbind_ok by (unfold lift; rewrite Hinfo; reflexivity).
    erewrite mbind_ok by (unfold lift; rewrite Hcoverage; reflexivity).
    reflexivity.
  - rewrite Hcalls, Hr, Hd. repeat split.
Qed.

(** C3.  In a single verification of a patient identifier (a non-empty
    string) whose patient fetch succeeds and whose normalized coverage is
    [null] (the patient record has been built by then), the response is
    200 with the patient record and
    [verification: {status: "no_coverage", message: "No insurance
    coverage found for patient"}], and [verifyEligibility] is not called:
    the request sets no timer and draws neither a random number nor a
    time stamp. *)
Theorem verify_insurance_no_coverage (req_body : value)
        (id : string) (patient patientInfo : value) env st :
  destructure req_body "patientId" = Ok (VStr id) ->
  id <> "" ->
  axios_get env (patient_url id) = Resolved patient ->
  extractPatientInfo patient = Ok patientInfo ->
  extractCoverageInfo (coverage_or_empty env id) = Ok VNull ->
  exists st',
    post_api_verify_insurance req_body env st
    = (Ok {| status := 200;
             body := VObj [("success", VBool true);
                           ("verification",
                            VObj [("status", VStr "no_coverage");
                                  ("message",
                                   VStr "No insurance coverage found for patient")]);
                           ("patient", patientInfo)] |}, st')
    /\ eligibility_calls (trace st') = eligibility_calls (trace st)
    /\ random_calls st' = random_calls st
    /\ date_calls st' = date_calls st.
Proof. apply single_without_coverage. Qed.

Lemma verify_insurance_no_coverage_witness :
  axios_get clinic_env (patient_url "p2") = Resolved (VObj [("id", VStr "p2")])
  /\ extractCoverageInfo (coverage_or_empty clinic_env "p2") = Ok VNull
  /\ exists patientInfo st',
      post_api_verify_insurance (VObj [("patientId", VStr "p2")])
                                clinic_env blank
      = (Ok {| status := 200;
               body := VObj [("success", VBool true);
                             ("verification",
                              VObj [("status", VStr "no_coverage");
                                    ("message",
                                     VStr "No insurance coverage found for patient")]);
                             ("patient", patientInfo)] |}, st')
      /\ eligibility_calls (trace st') = 0%nat.
Proof.
  split; [reflexivity|]. split; [reflexivity|].
  destruct (verify_insurance_no_coverage
              (VObj [("patientId", VStr "p2")]) "p2"
              (VObj [("id", VStr "p2")])
              (VObj [("id", VStr "p2"); ("firstName", VStr "");
                     ("lastName", VStr ""); ("birthDate", VUndefined);
                     ("gender", VUndefined); ("phone", VUndefined);
                     ("address", VUndefined)])
              clinic_env blank eq_refl)
    as (st' & Hrun & Hcalls & _);
    [discriminate | reflexivity | reflexivity | reflexivity |].
  do 2 eexists. split; [exact Hrun | exact Hcalls].
Defined.

(** ** Batch verification *)

Lemma mbind_ok_inv {A B} (m : M A) (k : A -> M B) env st b st' :
  mbind m k env st = (Ok b, st') ->
  exists a st1, m env st = (Ok a, st1) /\ k a env st1 = (Ok b, st').
Proof.
  unfold mbind. destruct (m env st) as [[a|e] st1]; intros H.
  - exists a, st1. split; [reflexivity | exact H].
  - discriminate H.
Qed.

Lemma getPatient_frame (patientId : value) env st st0 :
  fst (getPatient patientId env st) = fst (getPatient patientId env st0)
  /\ same_draws st (snd (getPatient patientId env st)).
Proof.
  unfold getPatient, try_catch, mbind, lift, axios_get_data, emit, throw,
    same_draws.
  destruct (to_string patientId) as [id|e]; simpl.
  - destruct (axios_get env (patient_url id)) as [data|s m]; simpl.
    + repeat split.
    + destruct (is_num _ 404); simpl; repeat split.
  - destruct (is_num _ 404); simpl; repeat split.
Qed.

Lemma getCoverage_frame (patientId : value) env st st0 :
  fst (getCoverage patientId env st) = fst (getCoverage patientId env st0)
  /\ same_draws st (snd (getCoverage patientId env st)).
Proof.
  unfold getCoverage, try_catch, mbind, lift, axios_get_data, emit, ret,
    same_draws.
  destruct (to_string patientId) as [id|e]; simpl.
  - destruct (axios_get env (coverage_url id)); simpl; repeat split.
  - repeat split.
Qed.

Lemma getPatient_with_draws (patientId : value) env r now st :
  getPatient patientId (with_draws env r now) st = getPatient patientId env st.
Proof.
  unfold getPatient, try_catch, mbind, lift, axios_get_data.
  destruct (to_string patientId) as [id|e]; cbn [axios_get with_draws].
  - destruct (axios_get env (patient_url id)) as [data|s m]; [reflexivity|].
    destruct (is_num _ 404); reflexivity.
  - destruct (is_num _ 404); reflexivity.
Qed.

Lemma getCoverage_with_draws (patientId : value) env r now st :
  getCoverage patientId (with_draws env r now) st
  = getCoverage patientId env st.
Proof.
  unfold getCoverage, try_catch, mbind, lift, axios_get_data.
  destruct (to_string patientId) as [id|e]; cbn [axios_get with_draws];
    [|reflexivity].
  destruct (axios_get env (coverage_url id)); reflexivity.
Qed.

Lemma batch_item_entry (patientId : value) env st :
  exists st',
    batch_item patientId env st
    = (Ok (item_entry env patientId
                      (Math_random env (random_calls st))
                      (Date_toISOString env (date_calls st))), st').
Proof.
  set (r := Math_random env (random_calls st)).
  set (now := Date_toISOString env (date_calls st)).
  unfold item_entry, value_of, batch_item, try_catch, mbind.
  rewrite getPatient_with_draws.
  destruct (getPatient_frame patientId env st blank) as [Hp [Hpr Hpd]].
  destruct (getPatient patientId env st) as [[patient|e] st1];
    destruct (getPatient patientId env blank) as [[patient'|e'] st1'];
    simpl in Hp, Hpr, Hpd; try discriminate Hp;
    [injection Hp as <- | injection Hp as <-; eexists; reflexivity].
  rewrite getCoverage_with_draws.
  destruct (getCoverage_frame patientId env st1 st1') as [Hc [Hcr Hcd]].
  destruct (getCoverage patientId env st1) as [[coverage|e] st2];
    destruct (getCoverage patientId env st1') as [[coverage'|e'] st2'];
    simpl in Hc, Hcr, Hcd; try discriminate Hc;
    [injection Hc as <- | injection Hc as <-; eexists; reflexivity].
  unfold lift, ret.
  destruct (extractPatientInfo patient) as [patientInfo|e];
    [|eexists; reflexivity].
  destruct (extractCoverageInfo coverage) as [coverageInfo|e];
    [|eexists; reflexivity].
  destruct (truthy coverageInfo); [|eexists; reflexivity].
  rewrite !verifyEligibility_run. cbn [Math_random Date_toISOString with_draws].
  rewrite Hcr, Hpr, Hcd, Hpd. fold r now.
  destruct (rbind (payer_id coverageInfo) (get_computed mockPayers))
    as [payer|e]; [|eexists; reflexivity].
  destruct (truthy payer); eexists; reflexivity.
Qed.

Lemma verifyEligibility_value (patientData coverageData : value) env st :
  fst (verifyEligibility patientData coverageData env st)
  = eligibility_outcome coverageData
                        (Math_random env (random_calls st))
                        (Date_toISOString env (date_calls st)).
Proof.
  rewrite verifyEligibility_run. unfold eligibility_outcome.
  destruct (rbind _ _) as [found|e]; [|reflexivity].
  destruct (truthy found); reflexivity.
Qed.

Lemma item_entry_for (id : string) env r now :
  item_entry env (VStr id) r now
  = entry_for id (axios_get env (patient_url id))
              (axios_get env (coverage_url id)) r now.
Proof.
  unfold item_entry, value_of, batch_item, try_catch, entry_for.
  destruct (axios_get env (patient_url id)) as [patient|s m] eqn:Hp.
  - erewrite mbind_ok
      by (rewrite getPatient_with_draws;
          apply (getPatient_resolved (VStr id) id _ _ _ eq_refl Hp)).
    destruct (getCoverage_run (VStr id) id env
                (log (HttpGet (patient_url id)) blank) eq_refl)
      as (st2 & Hcov & _ & _).
    erewrite mbind_ok by (rewrite getCoverage_with_draws; exact Hcov).
    unfold coverage_or_empty, mbind, lift, ret.
    destruct (extractPatientInfo patient) as [patientInfo|e]; [|reflexivity].
    destruct (extractCoverageInfo _) as [coverageInfo|e]; [|reflexivity].
    destruct (truthy coverageInfo); [|reflexivity].
    pose proof (verifyEligibility_value patientInfo coverageInfo
                  (with_draws env r now) st2) as Hv.
    cbn [Math_random Date_toISOString with_draws] in Hv.
    destruct (verifyEligibility patientInfo coverageInfo
                                (with_draws env r now) st2)
      as [[verification|e] st3] eqn:Hrun; simpl in Hv; rewrite <- Hv.
    + pose proof (verifyEligibility_truthy _ _ _ _ _ _ Hrun) as Ht.
      simpl. unfold js_or. rewrite Ht. reflexivity.
    + reflexivity.
  - destruct (is_404 s) eqn:H404.
    + destruct s as [s|]; [|discriminate H404].
      simpl in H404. apply Z.eqb_eq in H404. subst s.
      erewrite mbind_throw
        by (rewrite getPatient_with_draws;
            apply (getPatient_not_found (VStr id) id _ _ _ eq_refl Hp)).
      reflexivity.
    + erewrite mbind_throw
        by (rewrite getPatient_with_draws;
            apply (getPatient_failed (VStr id) id _ _ _ _ eq_refl Hp);
            intros ->; discriminate H404).
      reflexivity.
Qed.

Lemma batch_loop_entries (patientIds : list value) env :
  forall (results : list value) st,
  exists draws st',
    List.length draws = List.length patientIds
    /\ batch_loop patientIds results env st
       = (Ok (results ++ map (entry_with env) (combine patientIds draws))%list,
          st').
Proof.
  induction patientIds as [|patientId rest IH]; intros results st.
  - exists [], st. split; [reflexivity|].
    simpl. rewrite app_nil_r. reflexivity.
  - destruct (batch_item_entry patientId env st) as (st1 & Hitem).
    destruct (IH (results ++ [item_entry env patientId
                                (Math_random env (random_calls st))
                                (Date_toISOString env (date_calls st))])%list
                 st1)
      as (draws & st' & Hlen & Hloop).
    exists ((Math_random env (random_calls st),
             Date_toISOString env (date_calls st)) :: draws), st'.
    split; [simpl; rewrite Hlen; reflexivity|].
    cbn [batch_loop]. erewrite mbind_ok by exact Hitem.
    rewrite Hloop. rewrite <- app_assoc. reflexivity.
Qed.

Lemma verify_batch_run (req_body : value) (patientIds : list value) env st :
  destructure req_body "patientIds" = Ok (VArr patientIds) ->
  patientIds <> [] ->
  exists draws st',
    List.length draws = List.length patientIds
    /\ post_api_verify_batch req_body env st
       = (Ok {| status := 200;
                body := VObj [("success", VBool true);
                              ("results",
                               VArr (map (entry_with env)
                                         (combine patientIds draws)))] |},
          st').
Proof.
  intros Hbody Hne.
  destruct (batch_loop_entries patientIds env [] st)
    as (draws & st' & Hlen & Hloop).
  exists draws, st'. split; [exact Hlen|].
  unfold post_api_verify_batch.
  erewrite try_catch_ok; [reflexivity|].
  erewrite mbind_ok by (unfold lift; rewrite Hbody; reflexivity).
  destruct patientIds as [|patientId rest]; [contradiction Hne; reflexivity|].
  erewrite (mbind_ok _ _ _ _ false st) by reflexivity.
  cbv iota. cbn [array_items].
  erewrite mbind_ok by exact Hloop. reflexivity.
Qed.

Lemma nth_error_entries (env : Env) (patientIds : list value)
      (draws : list (Q * string)) :
  List.length draws = List.length patientIds ->
  forall i patientId,
    nth_error patientIds i = Some patientId ->
    exists r now,
      nth_error draws i = Some (r, now)
      /\ nth_error (map (entry_with env) (combine patientIds draws)) i
         = Some (item_entry env patientId r now).
Proof.
  revert draws.
  induction patientIds as [|p rest IH]; intros draws Hlen i patientId Hnth.
  - destruct i; discriminate Hnth.
  - destruct draws as [|[r now] draws]; [discriminate Hlen|].
    destruct i as [|i].
    + injection Hnth as <-. exists r, now. split; reflexivity.
    + simpl in Hnth. injection Hlen as Hlen.
      destruct (IH draws Hlen i patientId Hnth) as (r' & now' & H1 & H2).
      exists r', now'. split; [exact H1 | exact H2].
Qed.

Lemma nth_error_text (ids : list string) (i : nat) (id : string) :
  nth_error ids i = Some id -> nth_error (map VStr ids) i = Some (VStr id).
Proof.
  intros H. rewrite nth_error_map, H. reflexivity.
Qed.

(** C4.  A batch over a non-empty list of patient identifiers (strings)
    answers 200 with one entry per identifier, in the order of the
    input.  The entry at position [i] names the identifier at position
    [i] and is settled by the gateway's two answers for that identifier
    (and the random number and time stamp drawn for it) alone, so that
    another identifier's failure cannot change it:
    - a patient fetch rejected with 404 gives
      [{patientId, error: "Patient with ID '<id>' not found. ..."}], any
      other rejected patient fetch
      [{patientId, error: "Failed to fetch patient data"}], and a
      patient that cannot be normalized the failure entry with the
      error's message;
    - a patient that is fetched and normalized gives the success entry
      [{patientId, patient, coverage, verification}], where the
      verification is [{status: "no_coverage"}] for a [null] coverage
      record and the report of [verifyEligibility] otherwise.
    Each entry has one of the two shapes and not the other. *)
Theorem verify_batch_isolation (req_body : value) (ids : list string)
        env st :
  destructure req_body "patientIds" = Ok (VArr (map VStr ids)) ->
  ids <> [] ->
  exists (draws : list (Q * string)) (results : list value) st',
    post_api_verify_batch req_body env st
    = (Ok {| status := 200;
             body := VObj [("success", VBool true);
                           ("results", VArr results)] |}, st')
    /\ List.length results = List.length ids
    /\ forall i id,
        nth_error ids i = Some id ->
        exists r now entry,
          nth_error draws i = Some (r, now)
          /\ nth_error results i = Some entry
          /\ get entry "patientId" = VStr id
          /\ (forall env',
                axios_get env' (patient_url id)
                = axios_get env (patient_url id) ->
                axios_get env' (coverage_url id)
                = axios_get env (coverage_url id) ->
                entry = entry_for id (axios_get env' (patient_url id))
                                  (axios_get env' (coverage_url id)) r now)
          /\ (keys entry = ["patientId"; "patient"; "coverage"; "verification"]
              /\ keys entry <> ["patientId"; "error"]
              \/ keys entry = ["patientId"; "error"]
                 /\ keys entry
                    <> ["patientId"; "patient"; "coverage"; "verification"])
          /\ (forall message,
                axios_get env (patient_url id)
                = Rejected (Some 404%Z) message ->
                entry
                = VObj [("patientId", VStr id);
                        ("error",
                         VStr ("Patient with ID '" ++ id
                               ++ "' not found. Try searching for patients first."))])
          /\ (forall response_status message,
                axios_get env (patient_url id)
                = Rejected response_status message ->
                response_status <> Some 404%Z ->
                entry = VObj [("patientId", VStr id);
                              ("error", VStr "Failed to fetch patient data")])
          /\ (forall patient e,
                axios_get env (patient_url id) = Resolved patient ->
                extractPatientInfo patient = Throw e ->
                entry = VObj [("patientId", VStr id);
                              ("error", VStr (exn_message e))])
          /\ (forall patient patientInfo coverageInfo,
                axios_get env (patient_url id) = Resolved patient ->
                extractPatientInfo patient = Ok patientInfo ->
                extractCoverageInfo (coverage_or_empty env id)
                = Ok coverageInfo ->
                (truthy coverageInfo = false ->
                 entry = VObj [("patientId", VStr id);
                               ("patient", patientInfo);
                               ("coverage", coverageInfo);
                               ("verification",
                                VObj [("status", VStr "no_coverage")])])
                /\ (forall verification st0,
                      truthy coverageInfo = true ->
                      fst (verifyEligibility patientInfo coverageInfo
                                             (with_draws env r now) st0)
                      = Ok verification ->
                      entry = VObj [("patientId", VStr id);
                                    ("patient", patientInfo);
                                    ("coverage", coverageInfo);
                                    ("verification", verification)])).
Proof.
  intros Hbody Hne.
  assert (Hne' : map VStr ids <> []) by (destruct ids; [contradiction|discriminate]).
  destruct (verify_batch_run req_body (map VStr ids) env st Hbody Hne')
    as (draws & st' & Hlen & Hrun).
  exists draws, (map (entry_with env) (combine (map VStr ids) draws)), st'.
  split; [exact Hrun|]. split.
  - rewrite length_map, length_combine, Hlen, length_map. apply Nat.min_id.
  - intros i id Hnth.
    destruct (nth_error_entries env (map VStr ids) draws Hlen i (VStr id)
                (nth_error_text ids i id Hnth))
      as (r & now & Hdraw & Hentry).
    exists r, now, (item_entry env (VStr id) r now).
    rewrite item_entry_for in *.
    split; [exact Hdraw|]. split; [exact Hentry|].
    unfold entry_for, coverage_or_empty.
    destruct (axios_get env (patient_url id)) as [patient|s m] eqn:Hp.
    + destruct (extractPatientInfo patient) as [patientInfo|e] eqn:Hinfo.
      * destruct (extractCoverageInfo
                    match axios_get env (coverage_url id) with
                    | Resolved bundle => bundle
                    | Rejected _ _ => empty_bundle
                    end) as [coverageInfo|e] eqn:Hcov.
        -- destruct (truthy coverageInfo) eqn:Htruthy.
           ++ destruct (eligibility_outcome coverageInfo r now)
                as [verification|e] eqn:Hout.
              ** split; [reflexivity|]. split.
                 { intros env' Hp' Hc'. rewrite Hp', ?Hc'. rewrite Hinfo, Hcov, Htruthy, Hout.
                   reflexivity. }
                 split; [left; split; [reflexivity | discriminate]|].
                 split; [discriminate|]. split; [discriminate|].
                 split; [intros p e H; injection H as <-; congruence|].
                 intros p pi ci H Hpi Hci. injection H as <-.
                 rewrite Hinfo in Hpi. injection Hpi as <-.
                 injection Hci as <-. split; [congruence|].
                 intros v st0 _ Hv.
                 rewrite verifyEligibility_value in Hv.
                 cbn [Math_random Date_toISOString with_draws] in Hv.
                 rewrite Hout in Hv. injection Hv as <-. reflexivity.
              ** split; [reflexivity|]. split.
                 { intros env' Hp' Hc'. rewrite Hp', ?Hc'. rewrite Hinfo, Hcov, Htruthy, Hout.
                   reflexivity. }
                 split; [right; split; [reflexivity | discriminate]|].
                 split; [discriminate|]. split; [discriminate|].
                 split; [intros p e' H; injection H as <-; congruence|].
                 intros p pi ci H Hpi Hci. injection H as <-.
                 rewrite Hinfo in Hpi. injection Hpi as <-.
                 injection Hci as <-. split; [congruence|].
                 intros v st0 _ Hv.
                 rewrite verifyEligibility_value in Hv.
                 cbn [Math_random Date_toISOString with_draws] in Hv.
                 rewrite Hout in Hv. discriminate Hv.
           ++ split; [reflexivity|]. split.
              { intros env' Hp' Hc'. rewrite Hp', ?Hc'. rewrite Hinfo, Hcov, Htruthy. reflexivity. }
              split; [left; split; [reflexivity | discriminate]|].
              split; [discriminate|]. split; [discriminate|].
              split; [intros p e H; injection H as <-; congruence|].
              intros p pi ci H Hpi Hci. injection H as <-.
              rewrite Hinfo in Hpi. injection Hpi as <-.
              injection Hci as <-. split; [reflexivity|].
              intros v st0 Ht. congruence.
        -- split; [reflexivity|]. split.
           { intros env' Hp' Hc'. rewrite Hp', ?Hc'. rewrite Hinfo, Hcov. reflexivity. }
           split; [right; split; [reflexivity | discriminate]|].
           split; [discriminate|]. split; [discriminate|].
           split; [intros p e' H; injection H as <-; congruence|].
           intros p pi ci H Hpi Hci. discriminate Hci.
      * split; [reflexivity|]. split.
        { intros env' Hp' Hc'. rewrite Hp', ?Hc'. rewrite Hinfo. reflexivity. }
        split; [right; split; [reflexivity | discriminate]|].
        split; [discriminate|]. split; [discriminate|].
        split.
        { intros p e' H Hthrow. injection H as <-.
          rewrite Hinfo in Hthrow. injection Hthrow as <-. reflexivity. }
        intros p pi ci H Hpi. injection H as <-. congruence.
    + split; [reflexivity|]. split.
      { intros env' Hp' Hc'. rewrite Hp', ?Hc'. reflexivity. }
      split; [right; split; [reflexivity | discriminate]|].
      split.
      { intros m' H. injection H as -> ->. reflexivity. }
      split.
      { intros s' m' H Hs. injection H as <- <-.
        destruct s as [s|]; [|reflexivity]. simpl.
        destruct (Z.eqb_spec s 404) as [->|_]; [contradiction Hs|];
          reflexivity. }
      split; [discriminate|]. discriminate.
Qed.

Lemma verify_batch_isolation_witness :
  exists patientInfo coverageInfo verification patientInfo2 st',
    post_api_verify_batch
      (VObj [("patientIds",
              VArr [VStr "missing-id"; VStr "p1"; VStr "p9"; VStr "p2"])])
      clinic_env blank
    = (Ok {| status := 200;
             body :=
               VObj [("success", VBool true);
                     ("results",
                      VArr [VObj [("patientId", VStr "missing-id");
                                  ("error",
                                   VStr "Patient with ID 'missing-id' not found. Try searching for patients first.")];
                            VObj [("patientId", VStr "p1");
                                  ("patient", patientInfo);
                                  ("coverage", coverageInfo);
                                  ("verification", verification)];
                            VObj [("patientId", VStr "p9");
                                  ("error",
                                   VStr "Failed to fetch patient data")];
                            VObj [("patientId", VStr "p2");
                                  ("patient", patientInfo2);
                                  ("coverage", VNull);
                                  ("verification",
                                   VObj [("status", VStr "no_coverage")])]])] |},
       st')
    /\ get verification "payerName" = VStr "Blue Cross Blue Shield".
Proof.
  destruct (verify_batch_isolation
              (VObj [("patientIds",
                      VArr [VStr "missing-id"; VStr "p1"; VStr "p9";
                            VStr "p2"])])
              ["missing-id"; "p1"; "p9"; "p2"]
              clinic_env blank eq_refl)
    as (draws & results & st' & Hrun & Hlen & Hentries);
    [discriminate|].
  destruct (Hentries 0%nat "missing-id" eq_refl)
    as (r0 & now0 & e0 & _ & H0 & _ & _ & _ & Hnf & _).
  destruct (Hentries 1%nat "p1" eq_refl)
    as (r1 & now1 & e1 & _ & H1 & _ & Hfor1 & _).
  destruct (Hentries 2%nat "p9" eq_refl)
    as (r2 & now2 & e2 & _ & H2 & _ & _ & _ & _ & Hfail & _).
  destruct (Hentries 3%nat "p2" eq_refl)
    as (r3 & now3 & e3 & _ & H3 & _ & _ & _ & _ & _ & _ & Hok).
  rewrite (Hnf _ eq_refl) in H0.
  rewrite (Hfail None _ eq_refl) in H2 by discriminate.
  rewrite (Hfor1 clinic_env eq_refl eq_refl) in H1.
  destruct (Hok _ _ _ eq_refl eq_refl eq_refl) as [Hnone _].
  rewrite (Hnone eq_refl) in H3.
  destruct results as [|x0 [|x1 [|x2 [|x3 [|x4 rest]]]]];
    try discriminate Hlen.
  simpl in H0, H1, H2, H3.
  injection H0 as ->. injection H1 as ->. injection H2 as ->.
  injection H3 as ->.
  do 5 eexists. split; [exact Hrun|]. reflexivity.
Defined.

(** C10.  In a batch, a patient identifier (a string) whose patient fetch
    succeeds and whose normalized coverage is [null] gets the success
    entry [{patientId, patient, coverage: null, verification: {status:
    "no_coverage"}}], whose verification has no [message].  Single
    verification of the same identifier answers with
    [verification: {status: "no_coverage", message: "No insurance
    coverage found for patient"}] and the patient, and has no [coverage]
    field. *)
Theorem no_coverage_batch_and_single (req_body : value)
        (patientIds : list value) (i : nat)
        (id : string) (patient patientInfo : value) env st :
  destructure req_body "patientIds" = Ok (VArr patientIds) ->
  nth_error patientIds i = Some (VStr id) ->
  axios_get env (patient_url id) = Resolved patient ->
  extractPatientInfo patient = Ok patientInfo ->
  extractCoverageInfo (coverage_or_empty env id) = Ok VNull ->
  (exists results st',
      post_api_verify_batch req_body env st
      = (Ok {| status := 200;
               body := VObj [("success", VBool true);
                             ("results", VArr results)] |}, st')
      /\ nth_error results i
         = Some (VObj [("patientId", VStr id);
                       ("patient", patientInfo);
                       ("coverage", VNull);
                       ("verification",
                        VObj [("status", VStr "no_coverage")])]))
  /\ (forall single_body,
        destructure single_body "patientId" = Ok (VStr id) ->
        id <> "" ->
        exists st',
          post_api_verify_insurance single_body env st
          = (Ok {| status := 200;
                   body := VObj [("success", VBool true);
                                 ("verification",
                                  VObj [("status", VStr "no_coverage");
                                        ("message",
                                         VStr "No insurance coverage found for patient")]);
                                 ("patient", patientInfo)] |}, st')).
Proof.
  intros Hbody Hnth Hpatient Hinfo Hcoverage. split.
  - assert (Hne : patientIds <> []).
    { intros ->. destruct i; discriminate Hnth. }
    destruct (verify_batch_run req_body patientIds env st Hbody Hne)
      as (draws & st' & Hlen & Hrun).
    destruct (nth_error_entries env patientIds draws Hlen i (VStr id) Hnth)
      as (r & now & _ & Hentry).
    do 2 eexists. split; [exact Hrun|].
    rewrite Hentry, item_entry_for. unfold entry_for.
    rewrite Hpatient, Hinfo. fold (coverage_or_empty env id).
    rewrite Hcoverage. reflexivity.
  - intros single_body Hsingle Hid.
    destruct (single_without_coverage single_body id patient
                patientInfo env st Hsingle Hid Hpatient Hinfo Hcoverage)
      as (st' & Hrun & _).
    exists st'. exact Hrun.
Qed.

Lemma no_coverage_batch_and_single_witness :
  nth_error [VStr "p1"; VStr "p2"] 1 = Some (VStr "p2")
  /\ extractCoverageInfo (coverage_or_empty clinic_env "p2") = Ok VNull
  /\ (exists results st' entry,
        post_api_verify_batch
          (VObj [("patientIds", VArr [VStr "p1"; VStr "p2"])])
          clinic_env blank
        = (Ok {| status := 200;
                 body := VObj [("success", VBool true);
                               ("results", VArr results)] |}, st')
        /\ nth_error results 1 = Some entry
        /\ get entry "coverage" = VNull
        /\ get entry "verification" = VObj [("status", VStr "no_coverage")])
  /\ (exists response st',
        post_api_verify_insurance (VObj [("patientId", VStr "p2")])
                                  clinic_env blank
        = (Ok response, st')
        /\ get (get (body response) "verification") "message"
           = VStr "No insurance coverage found for patient"
        /\ keys (body response) = ["success"; "verification"; "patient"]).
Proof.
  split; [reflexivity|]. split; [reflexivity|].
  destruct (no_coverage_batch_and_single
              (VObj [("patientIds", VArr [VStr "p1"; VStr "p2"])])
              [VStr "p1"; VStr "p2"] 1 "p2"
              (VObj [("id", VStr "p2")])
              (VObj [("id", VStr "p2"); ("firstName", VStr "");
                     ("lastName", VStr ""); ("birthDate", VUndefined);
                     ("gender", VUndefined); ("phone", VUndefined);
                     ("address", VUndefined)])
              clinic_env blank
              eq_refl eq_refl eq_refl eq_refl eq_refl)
    as [(results & st' & Hrun & Hentry) Hsingle].
  split.
  - exists results, st'. eexists.
    split; [exact Hrun|]. split; [exact Hentry|]. split; reflexivity.
  - destruct (Hsingle (VObj [("patientId", VStr "p2")]) eq_refl)
      as (st1 & Hrun1); [discriminate|].
    do 2 eexists. split; [exact Hrun1|]. split; reflexivity.
Defined.

(** ** Request validation *)

(** X1.  [POST /api/verify-insurance] with a body whose [patientId] is
    missing or falsy (absent, [null], [""], [0], [false]) answers 400
    "Patient ID is required" and does nothing else: no request is sent
    and the state is left as it was. *)
Theorem verify_insurance_requires_patientId (req_body patientId : value)
        env st :
  destructure req_body "patientId" = Ok patientId ->
  truthy patientId = false ->
  post_api_verify_insurance req_body env st
  = (Ok {| status := 400;
           body := VObj [("success", VBool false);
                         ("error", VStr "Patient ID is required")] |}, st).
Proof.
  intros Hbody Hfalsy. unfold post_api_verify_insurance.
  erewrite try_catch_ok; [reflexivity|].
  erewrite mbind_ok by (unfold lift; rewrite Hbody; reflexivity).
  rewrite Hfalsy. reflexivity.
Qed.

Lemma verify_insurance_requires_patientId_witness :
  post_api_verify_insurance (VObj []) clinic_env blank
  = (Ok {| status := 400;
           body := VObj [("success", VBool false);
                         ("error", VStr "Patient ID is required")] |}, blank)
  /\ post_api_verify_insurance (VObj [("patientId", VStr "")]) clinic_env blank
     = (Ok {| status := 400;
              body := VObj [("success", VBool false);
                            ("error", VStr "Patient ID is required")] |},
        blank).
Proof.
  split.
  - apply (verify_insurance_requires_patientId (VObj []) VUndefined);
      reflexivity.
  - apply (verify_insurance_requires_patientId
             (VObj [("patientId", VStr "")]) (VStr "")); reflexivity.
Defined.

Lemma verify_batch_requires_ids_run (req_body patientIds : value) env st :
  destructure req_body "patientIds" = Ok patientIds ->
  is_array patientIds = false \/ patientIds = VArr [] ->
  post_api_verify_batch req_body env st
  = (Ok {| status := 400;
           body := VObj [("success", VBool false);
                         ("error",
                          VStr "Array of patient IDs is required")] |}, st).
Proof.
  intros Hbody Hinvalid. unfold post_api_verify_batch.
  erewrite try_catch_ok; [reflexivity|].
  erewrite mbind_ok by (unfold lift; rewrite Hbody; reflexivity).
  destruct Hinvalid as [Hnot| ->].
  - rewrite Hnot. reflexivity.
  - reflexivity.
Qed.


(** X2.  [POST /api/verify-batch] with [patientIds] that is not an array
    (among them: missing) or is the empty array answers 400 "Array of
    patient IDs is required" and leaves the state as it was. *)
Theorem verify_batch_requires_ids (req_body patientIds : value) env st :
  destructure req_body "patientIds" = Ok patientIds ->
  is_array patientIds = false \/ patientIds = VArr [] ->
  post_api_verify_batch req_body env st
  = (Ok {| status := 400;
           body := VObj [("success", VBool false);
                         ("error",
                          VStr "Array of patient IDs is required")] |}, st).
Proof. apply verify_batch_requires_ids_run. Qed.

Lemma verify_batch_requires_ids_witness :
  post_api_verify_batch (VObj [("patientIds", VStr "p1")]) clinic_env blank
  = (Ok {| status := 400;
           body := VObj [("success", VBool false);
                         ("error",
                          VStr "Array of patient IDs is required")] |},
     blank)
  /\ post_api_verify_batch (VObj [("patientIds", VArr [])]) clinic_env blank
     = (Ok {| status := 400;
              body := VObj [("success", VBool false);
                            ("error",
                             VStr "Array of patient IDs is required")] |},
        blank).
Proof.
  split.
  - apply (verify_batch_requires_ids
             (VObj [("patientIds", VStr "p1")]) (VStr "p1"));
      [reflexivity | left; reflexivity].
  - apply (verify_batch_requires_ids
             (VObj [("patientIds", VArr [])]) (VArr []));
      [reflexivity | right; reflexivity].
Defined.

(** ** Shapes of the normalizers' results *)

(** X3.  Whatever it is given, [extractCoverageInfo] returns, when it
    returns, either [null] or a record with exactly the keys [id],
    [status], [subscriberId], [payor], [period]; so the routes' tests
    [!coverageInfo] and [if (coverageInfo)] tell exactly these two
    apart. *)
Theorem extractCoverageInfo_shape (coverage coverageInfo : value) :
  extractCoverageInfo coverage = Ok coverageInfo ->
  (coverageInfo = VNull /\ truthy coverageInfo = false)
  \/ (keys coverageInfo = ["id"; "status"; "subscriberId"; "payor"; "period"]
      /\ truthy coverageInfo = true).
Proof.
  unfold extractCoverageInfo.
  destruct (field coverage "entry") as [entry|e]; simpl; [|discriminate].
  destruct (truthy entry); simpl.
  2:{ intros H. injection H as <-. left. split; reflexivity. }
  destruct (field entry "length") as [len|e]; simpl; [|discriminate].
  destruct (is_num len 0).
  { intros H. injection H as <-. left. split; reflexivity. }
  destruct (index0 entry) as [entry0|e]; simpl; [|discriminate].
  destruct (field entry0 "resource") as [res|e]; simpl; [|discriminate].
  destruct (field res "id") as [v1|e]; simpl; [|discriminate].
  destruct (field res "status") as [v2|e]; simpl; [|discriminate].
  destruct (field res "subscriberId") as [v3|e]; simpl; [|discriminate].
  destruct (field res "payor") as [v4|e]; simpl; [|discriminate].
  destruct (field res "period") as [v5|e]; simpl; [|discriminate].
  intros H. injection H as <-. right. split; reflexivity.
Qed.

Lemma extractCoverageInfo_shape_witness :
  exists coverageInfo,
    extractCoverageInfo sample_bundle = Ok coverageInfo
    /\ truthy coverageInfo = true
    /\ keys coverageInfo = ["id"; "status"; "subscriberId"; "payor"; "period"].
Proof.
  eexists. split; [reflexivity|].
  destruct (extractCoverageInfo_shape sample_bundle _ eq_refl)
    as [[Hnull _]|[Hkeys Htruthy]]; [discriminate Hnull|].
  split; [exact Htruthy | exact Hkeys].
Defined.

(** ** When normalization fails *)

Lemma find_first_scannable (items : list value) :
  (exists found, find_first is_phone items = Ok found)
  <-> scannable items = true.
Proof.
  induction items as [|t rest IH]; simpl.
  - split; [reflexivity | intros _; eexists; reflexivity].
  - unfold is_phone at 1. unfold phone_entry, get.
    destruct (field t "system") as [system|e] eqn:Hsys; simpl.
    + assert (Hn : nullish t = false)
        by (destruct t; try reflexivity; discriminate Hsys).
      rewrite Hn.
      destruct (is_str system "phone").
      * split; [reflexivity | intros _; eexists; reflexivity].
      * exact IH.
    + assert (Hn : nullish t = true)
        by (destruct t; try reflexivity; discriminate Hsys).
      rewrite Hn. split; [intros [found H]; discriminate H | discriminate].
Qed.

(** X4.  On a JSON object [extractPatientInfo] returns a record exactly
    when [telecom] is missing, [null], or an array in which no
    [undefined]/[null] entry precedes the first phone entry.  A
    [telecom] of any other kind makes it throw the TypeError
    "patient.telecom?.find is not a function"; [undefined] and [null] in
    place of the patient make it throw on reading [name]. *)
Theorem extractPatientInfo_succeeds_iff (props : list (string * value)) :
  ((exists patientInfo, extractPatientInfo (VObj props) = Ok patientInfo)
   <-> readable_telecom (own "telecom" props) = true)
  /\ (nullish (own "telecom" props) = false ->
      is_array (own "telecom" props) = false ->
      extractPatientInfo (VObj props)
      = Throw (TypeError "patient.telecom?.find is not a function"))
  /\ extractPatientInfo VUndefined
     = Throw (TypeError "Cannot read properties of undefined (reading 'name')")
  /\ extractPatientInfo VNull
     = Throw (TypeError "Cannot read properties of null (reading 'name')").
Proof.
  assert (Hrun : forall phone_result,
             (if nullish (own "telecom" props) then Ok VUndefined
              else rbind (call_find "patient.telecom?.find"
                                    (own "telecom" props) is_phone)
                         (fun found => opt_field found "value"))
             = phone_result ->
             extractPatientInfo (VObj props)
             = rbind phone_result
                     (fun phone =>
                        Ok (VObj [("id", own "id" props);
                                  ("firstName",
                                   js_or (get0 (get (get0 (own "name" props))
                                                    "given")) (VStr ""));
                                  ("lastName",
                                   js_or (get (get0 (own "name" props))
                                              "family") (VStr ""));
                                  ("birthDate", own "birthDate" props);
                                  ("gender", own "gender" props);
                                  ("phone", phone);
                                  ("address", get0 (own "address" props))]))).
  { intros phone_result <-. unfold extractPatientInfo.
    rewrite !field_obj. cbn [rbind].
    rewrite opt_index0_get0. cbn [rbind].
    rewrite opt_field_get. cbn [rbind].
    rewrite opt_index0_get0. cbn [rbind].
    rewrite opt_field_get. cbn [rbind].
    destruct (if nullish (own "telecom" props) then Ok VUndefined
              else rbind (call_find "patient.telecom?.find"
                                    (own "telecom" props) is_phone)
                         (fun found => opt_field found "value"))
      as [phone|e]; cbn [rbind]; [|reflexivity].
    rewrite opt_index0_get0. reflexivity. }
  split; [|split; [|split; reflexivity]].
  - rewrite (Hrun _ eq_refl).
    destruct (own "telecom" props) as [| | | | |items| |]; simpl;
      try (split; [intros _; reflexivity | intros _; eexists; reflexivity]);
      try (split; [intros [info H]; discriminate H | discriminate]).
    rewrite <- find_first_scannable.
    destruct (find_first is_phone items) as [found|e]; simpl.
    + rewrite opt_field_get. simpl.
      split; intros _; eexists; reflexivity.
    + split; intros [x H]; discriminate H.
  - intros Hnn Hna. rewrite (Hrun _ eq_refl).
    destruct (own "telecom" props); simpl in *; try discriminate; reflexivity.
Qed.

Lemma extractPatientInfo_succeeds_iff_witness :
  extractPatientInfo (VObj [("telecom", VStr "555-0100")])
  = Throw (TypeError "patient.telecom?.find is not a function")
  /\ (exists patientInfo,
         extractPatientInfo
           (VObj [("telecom", VArr [VObj [("system", VStr "phone")]; VNull])])
         = Ok patientInfo)
  /\ ~ (exists patientInfo,
           extractPatientInfo
             (VObj [("telecom", VArr [VNull; VObj [("system", VStr "phone")]])])
           = Ok patientInfo).
Proof.
  split; [|split].
  - apply (extractPatientInfo_succeeds_iff [("telecom", VStr "555-0100")]);
      reflexivity.
  - apply (extractPatientInfo_succeeds_iff
             [("telecom", VArr [VObj [("system", VStr "phone")]; VNull])]).
    reflexivity.
  - intros H.
    apply (extractPatientInfo_succeeds_iff
             [("telecom", VArr [VNull; VObj [("system", VStr "phone")]])])
      in H.
    discriminate H.
Defined.

(** X5.  A patient that was fetched (under a non-empty string
    identifier) but cannot be normalized is reported with the TypeError's
    message: as 404 by [GET /api/patient/:id], as 500 by
    [POST /api/verify-insurance], which has requested the coverage by
    then, and as a failure entry by the batch loop. *)
Theorem unreadable_patient (req_body : value) (id : string)
        (patient : value) (e : Exn) env st :
  destructure req_body "patientId" = Ok (VStr id) ->
  id <> "" ->
  axios_get env (patient_url id) = Resolved patient ->
  extractPatientInfo patient = Throw e ->
  get_api_patient id env st
  = (Ok {| status := 404;
           body := VObj [("success", VBool false);
                         ("error", VStr (exn_message e))] |},
     log (HttpGet (patient_url id)) st)
  /\ (exists st',
        post_api_verify_insurance req_body env st
        = (Ok {| status := 500;
                 body := VObj [("success", VBool false);
                               ("error", VStr (exn_message e))] |}, st')
        /\ requested (trace st')
           = (requested (trace st) ++ [patient_url id; coverage_url id])%list)
  /\ (exists st',
        batch_item (VStr id) env st
        = (Ok (VObj [("patientId", VStr id);
                     ("error", VStr (exn_message e))]), st')).
Proof.
  intros Hbody Hid Hpatient Hthrow.
  pose proof (getPatient_resolved (VStr id) id patient env st eq_refl Hpatient)
    as Hfetch.
  split; [|split].
  - unfold get_api_patient.
    erewrite try_catch_throw; [reflexivity|].
    erewrite mbind_ok by exact Hfetch.
    erewrite mbind_throw by (unfold lift; rewrite Hthrow; reflexivity).
    reflexivity.
  - destruct (getCoverage_run (VStr id) id env
                (log (HttpGet (patient_url id)) st) eq_refl)
      as (st2 & Hcov & _ & _).
    exists st2. split.
    + unfold post_api_verify_insurance.
      erewrite try_catch_throw; [reflexivity|].
      erewrite mbind_ok by (unfold lift; rewrite Hbody; reflexivity).
      rewrite (truthy_text id Hid). cbn [negb].
      erewrite mbind_ok by exact Hfetch.
      erewrite mbind_ok by exact Hcov.
      erewrite mbind_throw by (unfold lift; rewrite Hthrow; reflexivity).
      reflexivity.
    + revert Hcov.
      unfold getCoverage, try_catch, mbind, lift, axios_get_data, emit, ret.
      cbn [to_string].
      destruct (axios_get env (coverage_url id)); simpl;
        intros H; injection H as _ <-; simpl;
        rewrite <- app_assoc; reflexivity.
  - destruct (getCoverage_run (VStr id) id env
                (log (HttpGet (patient_url id)) st) eq_refl)
      as (st2 & Hcov & _ & _).
    exists st2. unfold batch_item.
    erewrite try_catch_throw; [reflexivity|].
    erewrite mbind_ok by exact Hfetch.
    erewrite mbind_ok by exact Hcov.
    erewrite mbind_throw by (unfold lift; rewrite Hthrow; reflexivity).
    reflexivity.
Qed.

Lemma unreadable_patient_witness :
  extractPatientInfo (VObj [("id", VStr "p3"); ("telecom", VStr "555-0100")])
  = Throw (TypeError "patient.telecom?.find is not a function")
  /\ get_api_patient "p3" ward_env blank
     = (Ok {| status := 404;
              body := VObj [("success", VBool false);
                            ("error",
                             VStr "patient.telecom?.find is not a function")] |},
        log (HttpGet (patient_url "p3")) blank)
  /\ exists st',
      post_api_verify_insurance (VObj [("patientId", VStr "p3")])
                                ward_env blank
      = (Ok {| status := 500;
               body := VObj [("success", VBool false);
                             ("error",
                              VStr "patient.telecom?.find is not a function")] |},
         st').
Proof.
  split; [reflexivity|].
  destruct (unreadable_patient
              (VObj [("patientId", VStr "p3")]) "p3"
              (VObj [("id", VStr "p3"); ("telecom", VStr "555-0100")])
              (TypeError "patient.telecom?.find is not a function")
              ward_env blank eq_refl)
    as (Hget & (st' & Hpost & _) & _);
    [discriminate | reflexivity | reflexivity |].
  split; [exact Hget|]. exists st'. exact Hpost.
Defined.

(** ** Single verification and the batch loop *)

(** X6.  For an identifier that passes the single route's check, the
    batch loop does what single verification does, with the same effects,
    and only shapes the outcome differently: a 500 with message [m]
    becomes [{patientId, error: m}], a "no coverage" answer becomes
    [{patientId, patient, coverage: null, verification: {status:
    "no_coverage"}}], and a full answer keeps its patient, coverage and
    verification. *)
Theorem batch_item_matches_single (req_body patientId : value) env st :
  destructure req_body "patientId" = Ok patientId ->
  truthy patientId = true ->
  exists response entry st',
    post_api_verify_insurance req_body env st = (Ok response, st')
    /\ batch_item patientId env st = (Ok entry, st')
    /\ ((exists message,
            response = {| status := 500;
                          body := VObj [("success", VBool false);
                                        ("error", VStr message)] |}
            /\ entry = VObj [("patientId", patientId);
                             ("error", VStr message)])
        \/ (exists patientInfo,
               response
               = {| status := 200;
                    body := VObj [("success", VBool true);
                                  ("verification", no_coverage_found);
                                  ("patient", patientInfo)] |}
               /\ entry = VObj [("patientId", patientId);
                                ("patient", patientInfo);
                                ("coverage", VNull);
                                ("verification",
                                 VObj [("status", VStr "no_coverage")])])
        \/ (exists patientInfo coverageInfo verification,
               response
               = {| status := 200;
                    body := VObj [("success", VBool true);
                                  ("patient", patientInfo);
                                  ("coverage", coverageInfo);
                                  ("verification", verification)] |}
               /\ entry = VObj [("patientId", patientId);
                                ("patient", patientInfo);
                                ("coverage", coverageInfo);
                                ("verification", verification)])).
Proof.
  intros Hbody Htruthy.
  unfold post_api_verify_insurance, batch_item, try_catch.
  erewrite mbind_ok by (unfold lift; rewrite Hbody; reflexivity).
  rewrite Htruthy. cbn [negb]. unfold mbind.
  destruct (getPatient patientId env st) as [[patient|e] st1].
  2:{ do 3 eexists. split; [reflexivity|]. split; [reflexivity|].
      left. eexists. split; reflexivity. }
  destruct (getCoverage patientId env st1) as [[coverage|e] st2].
  2:{ do 3 eexists. split; [reflexivity|]. split; [reflexivity|].
      left. eexists. split; reflexivity. }
  unfold lift, ret.
  destruct (extractPatientInfo patient) as [patientInfo|e].
  2:{ do 3 eexists. split; [reflexivity|]. split; [reflexivity|].
      left. eexists. split; reflexivity. }
  destruct (extractCoverageInfo coverage) as [coverageInfo|e] eqn:Hcov.
  2:{ do 3 eexists. split; [reflexivity|]. split; [reflexivity|].
      left. eexists. split; reflexivity. }
  destruct (extractCoverageInfo_shape _ _ Hcov) as [[-> _]|[_ Hobj]].
  { do 3 eexists. split; [reflexivity|]. split; [reflexivity|].
    right. left. eexists. split; reflexivity. }
  rewrite Hobj. cbn [negb].
  destruct (verifyEligibility patientInfo coverageInfo env st2)
    as [[verification|e] st3] eqn:Hver.
  2:{ do 3 eexists. split; [reflexivity|]. split; [reflexivity|].
      left. eexists. split; reflexivity. }
  unfold js_or. rewrite (verifyEligibility_truthy _ _ _ _ _ _ Hver).
  do 3 eexists. split; [reflexivity|]. split; [reflexivity|].
  right. right. do 3 eexists. split; reflexivity.
Qed.

Lemma batch_item_matches_single_witness :
  exists response entry st',
    post_api_verify_insurance (VObj [("patientId", VStr "p1")])
                              clinic_env blank = (Ok response, st')
    /\ batch_item (VStr "p1") clinic_env blank = (Ok entry, st')
    /\ get (body response) "verification" = get entry "verification"
    /\ get (get entry "verification") "payerName"
       = VStr "Blue Cross Blue Shield".
Proof.
  destruct (batch_item_matches_single
              (VObj [("patientId", VStr "p1")]) (VStr "p1")
              clinic_env blank eq_refl eq_refl)
    as (response & entry & st' & Hsingle & Hitem & _).
  exists response, entry, st'.
  split; [exact Hsingle|]. split; [exact Hitem|].
  vm_compute in Hsingle. vm_compute in Hitem.
  injection Hsingle as <- _. injection Hitem as <- _.
  split; reflexivity.
Defined.

(** ** Requests and calls *)

Lemma verifyEligibility_requests (patientData coverageData : value) env st :
  requested (trace (snd (verifyEligibility patientData coverageData env st)))
  = requested (trace st)
  /\ within 0 1 st (snd (verifyEligibility patientData coverageData env st)).
Proof.
  rewrite verifyEligibility_run. unfold within.
  destruct (rbind _ _) as [payer|e]; [destruct (truthy payer)|]; simpl;
    repeat split; lia.
Qed.

(** X7.  Single verification of a patient identifier (a non-empty
    string) sends its requests in a fixed order and sends no more than it
    needs: the patient request first, and the coverage request after it
    exactly when the patient fetch succeeded.  Nothing else is
    requested. *)
Theorem verify_insurance_requests (req_body : value) (id : string)
        env st :
  destructure req_body "patientId" = Ok (VStr id) ->
  id <> "" ->
  exists response st',
    post_api_verify_insurance req_body env st = (Ok response, st')
    /\ requested (trace st')
       = (requested (trace st)
          ++ match axios_get env (patient_url id) with
             | Resolved _ => [patient_url id; coverage_url id]
             | Rejected _ _ => [patient_url id]
             end)%list.
Proof.
  intros Hbody Hid.
  unfold post_api_verify_insurance, try_catch.
  erewrite mbind_ok by (unfold lift; rewrite Hbody; reflexivity).
  rewrite (truthy_text id Hid). cbn [negb].
  destruct (axios_get env (patient_url id)) as [patient|s m] eqn:Hget.
  - erewrite mbind_ok
      by (apply (getPatient_resolved (VStr id) id _ _ _ eq_refl Hget)).
    assert (Hcov : exists coverage st2,
               getCoverage (VStr id) env (log (HttpGet (patient_url id)) st)
               = (Ok coverage, st2)
               /\ requested (trace st2)
                  = (requested (trace st)
                     ++ [patient_url id; coverage_url id])%list).
    { unfold getCoverage, try_catch, mbind, lift, axios_get_data, emit, ret.
      cbn [to_string].
      destruct (axios_get env (coverage_url id)); simpl;
        do 2 eexists; (split; [reflexivity|]); simpl;
        rewrite <- app_assoc; reflexivity. }
    destruct Hcov as (coverage & st2 & Hcov & Hreq).
    erewrite mbind_ok by exact Hcov.
    unfold mbind, lift, ret.
    destruct (extractPatientInfo patient) as [patientInfo|e];
      [|do 2 eexists; split; [reflexivity | exact Hreq]].
    destruct (extractCoverageInfo coverage) as [coverageInfo|e];
      [|do 2 eexists; split; [reflexivity | exact Hreq]].
    destruct (truthy coverageInfo); cbn [negb];
      [|do 2 eexists; split; [reflexivity | exact Hreq]].
    destruct (verifyEligibility_requests patientInfo coverageInfo env st2)
      as [Hsame _].
    destruct (verifyEligibility patientInfo coverageInfo env st2)
      as [[verification|e] st3]; simpl in Hsame;
      do 2 eexists; (split; [reflexivity|]); rewrite Hsame; exact Hreq.
  - assert (Hfail : exists e st1,
               getPatient (VStr id) env st = (Throw e, st1)
               /\ requested (trace st1)
                  = (requested (trace st) ++ [patient_url id])%list).
    { unfold getPatient, try_catch, mbind, lift, axios_get_data, emit, throw.
      cbn [to_string]. rewrite Hget. simpl.
      destruct (is_num _ 404); simpl; do 2 eexists; split; reflexivity. }
    destruct Hfail as (e & st1 & Hfail & Hreq).
    erewrite mbind_throw by exact Hfail.
    do 2 eexists; split; [reflexivity | exact Hreq].
Qed.

Lemma verify_insurance_requests_witness :
  exists response st',
    post_api_verify_insurance (VObj [("patientId", VStr "missing-id")])
                              clinic_env blank = (Ok response, st')
    /\ requested (trace st') = [patient_url "missing-id"].
Proof.
  destruct (verify_insurance_requests
              (VObj [("patientId", VStr "missing-id")])
              "missing-id" clinic_env blank eq_refl)
    as (response & st' & Hrun & Hreq); [discriminate|].
  exists response, st'. split; [exact Hrun | exact Hreq].
Defined.

Lemma within_refl (st : State) : within 0 0 st st.
Proof. unfold within. repeat split; lia. Qed.

Lemma within_trans (g1 c1 g2 c2 : nat) (st st1 st2 : State) :
  within g1 c1 st st1 -> within g2 c2 st1 st2 ->
  within (g1 + g2) (c1 + c2) st st2.
Proof. unfold within. intros (?&?&?&?) (?&?&?&?). repeat split; lia. Qed.

Lemma within_weaken (g c g' c' : nat) (st st' : State) :
  within g c st st' -> (g <= g')%nat -> (c <= c')%nat -> within g' c' st st'.
Proof. unfold within. intros (?&?&?&?) ? ?. repeat split; lia. Qed.

Lemma getPatient_within (patientId : value) env st :
  within 1 0 st (snd (getPatient patientId env st)).
Proof.
  unfold getPatient, try_catch, mbind, lift, axios_get_data, emit, throw,
    within.
  destruct (to_string patientId) as [id|e]; simpl.
  - destruct (axios_get env (patient_url id)) as [data|s m]; simpl.
    + rewrite length_app. simpl. repeat split; lia.
    + destruct (is_num _ 404); simpl; rewrite length_app; simpl;
        repeat split; lia.
  - destruct (is_num _ 404); simpl; repeat split; lia.
Qed.

Lemma getCoverage_within (patientId : value) env st :
  within 1 0 st (snd (getCoverage patientId env st)).
Proof.
  unfold getCoverage, try_catch, mbind, lift, axios_get_data, emit, ret,
    within.
  destruct (to_string patientId) as [id|e]; simpl.
  - destruct (axios_get env (coverage_url id)); simpl; rewrite length_app;
      simpl; repeat split; lia.
  - repeat split; lia.
Qed.

Lemma batch_item_within (patientId : value) env st :
  within 2 1 st (snd (batch_item patientId env st)).
Proof.
  unfold batch_item, try_catch, mbind.
  pose proof (getPatient_within patientId env st) as Hp.
  destruct (getPatient patientId env st) as [[patient|e] st1]; simpl in Hp;
    [|simpl; apply (within_weaken _ _ _ _ _ _ Hp); lia].
  pose proof (getCoverage_within patientId env st1) as Hc.
  pose proof (within_trans _ _ _ _ _ _ _ Hp Hc) as Hpc.
  destruct (getCoverage patientId env st1) as [[coverage|e] st2];
    simpl in Hc, Hpc;
    [|simpl; apply (within_weaken _ _ _ _ _ _ Hpc); lia].
  unfold lift, ret.
  destruct (extractPatientInfo patient) as [patientInfo|e];
    [|simpl; apply (within_weaken _ _ _ _ _ _ Hpc); lia].
  destruct (extractCoverageInfo coverage) as [coverageInfo|e];
    [|simpl; apply (within_weaken _ _ _ _ _ _ Hpc); lia].
  destruct (truthy coverageInfo);
    [|simpl; apply (within_weaken _ _ _ _ _ _ Hpc); lia].
  destruct (verifyEligibility_requests patientInfo coverageInfo env st2)
    as [_ Hv].
  pose proof (within_trans _ _ _ _ _ _ _ Hpc Hv) as Hall.
  destruct (verifyEligibility patientInfo coverageInfo env st2)
    as [[verification|e] st3]; simpl in Hall |- *; exact Hall.
Qed.

Lemma batch_loop_within (patientIds : list value) env :
  forall results st,
    within (2 * List.length patientIds) (List.length patientIds) st
           (snd (batch_loop patientIds results env st)).
Proof.
  induction patientIds as [|patientId rest IH]; intros results st.
  - simpl. apply within_refl.
  - cbn [batch_loop]. unfold mbind.
    pose proof (batch_item_within patientId env st) as Hitem.
    destruct (batch_item patientId env st) as [[entry|e] st1];
      simpl in Hitem.
    + pose proof (IH (results ++ [entry])%list st1) as Hrest.
      apply (within_weaken _ _ _ _ _ _
               (within_trans _ _ _ _ _ _ _ Hitem Hrest));
        simpl; lia.
    + simpl. apply (within_weaken _ _ _ _ _ _ Hitem); simpl; lia.
Qed.

(** X8.  A batch over [n] identifiers sends at most [2 * n] requests to
    the gateway and calls [verifyEligibility] at most [n] times (so it
    waits for at most [n] timers and draws at most [n] random numbers
    and time stamps), whatever the gateway answers. *)
Theorem verify_batch_cost (req_body : value) (patientIds : list value)
        env st :
  destructure req_body "patientIds" = Ok (VArr patientIds) ->
  exists response st',
    post_api_verify_batch req_body env st = (Ok response, st')
    /\ (List.length (requested (trace st'))
        <= List.length (requested (trace st)) + 2 * List.length patientIds)%nat
    /\ (eligibility_calls (trace st')
        <= eligibility_calls (trace st) + List.length patientIds)%nat
    /\ (random_calls st' <= random_calls st + List.length patientIds)%nat
    /\ (date_calls st' <= date_calls st + List.length patientIds)%nat.
Proof.
  intros Hbody.
  destruct patientIds as [|patientId rest].
  - exists (respond 400 (failure "Array of patient IDs is required")), st.
    split.
    + apply (verify_batch_requires_ids_run req_body (VArr []) env st Hbody).
      right. reflexivity.
    + simpl. repeat split; lia.
  - pose proof (batch_loop_within (patientId :: rest) env [] st) as Hcost.
    unfold post_api_verify_batch, try_catch.
    erewrite mbind_ok by (unfold lift; rewrite Hbody; reflexivity).
    erewrite (mbind_ok _ _ _ _ false st) by reflexivity.
    cbv iota. cbn [array_items]. unfold mbind.
    destruct (batch_loop (patientId :: rest) [] env st)
      as [[results|e] st1]; simpl in Hcost;
      do 2 eexists; (split; [reflexivity|]); exact Hcost.
Qed.

Lemma verify_batch_cost_witness :
  exists response st',
    post_api_verify_batch
      (VObj [("patientIds", VArr [VStr "missing-id"; VStr "p1"; VStr "p2"])])
      clinic_env blank = (Ok response, st')
    /\ (List.length (requested (trace st')) <= 6)%nat
    /\ (eligibility_calls (trace st') <= 3)%nat.
Proof.
  destruct (verify_batch_cost
              (VObj [("patientIds",
                      VArr [VStr "missing-id"; VStr "p1"; VStr "p2"])])
              [VStr "missing-id"; VStr "p1"; VStr "p2"]
              clinic_env blank eq_refl)
    as (response & st' & Hrun & Hreq & Hcalls & _).
  exists response, st'. split; [exact Hrun|]. split; [exact Hreq|exact Hcalls].
Defined.

(** ** Which payers are recognized *)

Lemma mockPayers_truthy (key : string) (payer : value) :
  assoc key mockPayers = Some payer -> truthy payer = true.
Proof.
  unfold mockPayers. simpl.
  repeat match goal with
         | |- context [if ?b then _ else _] => destruct b
         end;
    intros H; try discriminate H; injection H as <-; reflexivity.
Qed.

Lemma object_prototype_truthy (key : string) (inherited : value) :
  object_prototype key = Some inherited -> truthy inherited = true.
Proof.
  unfold object_prototype.
  repeat match goal with
         | |- context [if ?b then _ else _] => destruct b
         end;
    intros H; try discriminate H; injection H as <-; reflexivity.
Qed.

(** X9.  What [verifyEligibility] does is decided by the property the
    payer identifier names.  If it is neither a key of the payer table nor
    a property inherited from [Object.prototype], the report is "Payer
    not recognized" and neither [Math.random] nor the clock is read.
    Otherwise the report is the success report with that property's
    [name] as [payerName], and one random number and one time stamp are
    drawn. *)
Theorem verifyEligibility_outcomes (patientData coverageData payerId : value)
        (key : string) env st :
  payer_id coverageData = Ok payerId ->
  to_string payerId = Ok key ->
  (assoc key mockPayers = None
   /\ object_prototype key = None
   /\ verifyEligibility patientData coverageData env st
      = (Ok (VObj [("status", VStr "error");
                   ("message", VStr "Payer not recognized");
                   ("eligible", VBool false)]),
         {| random_calls := random_calls st;
            date_calls := date_calls st;
            trace := SetTimeout 1000 :: trace st |}))
  \/ (exists found,
         (assoc key mockPayers = Some found
          \/ assoc key mockPayers = None
             /\ object_prototype key = Some found)
         /\ verifyEligibility patientData coverageData env st
            = (Ok (eligibility_report
                     (above_a_fifth (Math_random env (random_calls st)))
                     (get found "name")
                     (Date_toISOString env (date_calls st))),
               {| random_calls := S (random_calls st);
                  date_calls := S (date_calls st);
                  trace := SetTimeout 1000 :: trace st |})).
Proof.
  intros Hid Hkey. rewrite verifyEligibility_run, Hid. cbn [rbind].
  unfold get_computed. rewrite Hkey. cbn [rbind].
  destruct (assoc key mockPayers) as [found|] eqn:Hown.
  - right. exists found. split; [left; reflexivity|].
    rewrite (mockPayers_truthy _ _ Hown). reflexivity.
  - destruct (object_prototype key) as [found|] eqn:Hproto.
    + right. exists found. split; [right; split; reflexivity|].
      rewrite (object_prototype_truthy _ _ Hproto). reflexivity.
    + left. repeat split.
Qed.

Lemma verifyEligibility_outcomes_witness :
  verifyEligibility VUndefined (coverage_of_payer (VStr "CIGNA001"))
                    idle_env blank
  = (Ok (VObj [("status", VStr "error");
               ("message", VStr "Payer not recognized");
               ("eligible", VBool false)]),
     {| random_calls := 0; date_calls := 0; trace := [SetTimeout 1000] |}).
Proof.
  destruct (verifyEligibility_outcomes
              VUndefined (coverage_of_payer (VStr "CIGNA001"))
              (VStr "CIGNA001") "CIGNA001" idle_env blank eq_refl eq_refl)
    as [(_ & _ & Hrun)|(found & [Hown|[_ Hproto]] & _)].
  - exact Hrun.
  - discriminate Hown.
  - discriminate Hproto.
Defined.

Lemma payer_id_path (coverageData : value) :
  nullish coverageData = false ->
  payer_id coverageData
  = Ok (get (get0 (get (get0 (get coverageData "payor")) "identifier"))
            "value").
Proof.
  intros Hn. unfold payer_id.
  rewrite (field_get _ _ Hn). cbn [rbind].
  rewrite opt_index0_get0. cbn [rbind].
  rewrite opt_field_get. cbn [rbind].
  rewrite opt_index0_get0. cbn [rbind].
  apply opt_field_get.
Qed.

(** X10.  On a coverage record without a payer identifier -- no [payor],
    an empty [payor] list, no [identifier], an empty [identifier] list or
    no [value], that is whenever the path
    [payor?.[0]?.identifier?.[0]?.value] ends in [undefined] or [null] --
    [verifyEligibility] returns the "Payer not recognized" report and
    draws neither a random number nor a time stamp. *)
Theorem verifyEligibility_absent_payer (patientData coverageData : value)
        env st :
  nullish coverageData = false ->
  nullish (get (get0 (get (get0 (get coverageData "payor")) "identifier"))
               "value") = true ->
  verifyEligibility patientData coverageData env st
  = (Ok (VObj [("status", VStr "error");
               ("message", VStr "Payer not recognized");
               ("eligible", VBool false)]),
     {| random_calls := random_calls st;
        date_calls := date_calls st;
        trace := SetTimeout 1000 :: trace st |}).
Proof.
  intros Hn Habsent. rewrite verifyEligibility_run.
  rewrite (payer_id_path _ Hn). cbn [rbind].
  destruct (get (get0 (get (get0 (get coverageData "payor")) "identifier"))
                "value"); try discriminate Habsent; reflexivity.
Qed.

Lemma verifyEligibility_absent_payer_witness :
  verifyEligibility VUndefined
                    (VObj [("id", VStr "cov-9"); ("payor", VArr [])])
                    idle_env blank
  = (Ok (VObj [("status", VStr "error");
               ("message", VStr "Payer not recognized");
               ("eligible", VBool false)]),
     {| random_calls := 0; date_calls := 0; trace := [SetTimeout 1000] |}).
Proof.
  apply (verifyEligibility_absent_payer
           VUndefined (VObj [("id", VStr "cov-9"); ("payor", VArr [])])
           idle_env blank); reflexivity.
Defined.

(** ** What getPatient can throw *)
Lemma to_string_throws :
  forall (v : value) (e : Exn),
    to_string v = Throw e ->
    e = TypeError "Cannot convert object to primitive value".
Proof.
  fix IH 1. intros v e.
  destruct v as [| |b|n|s|items|props|f]; simpl; try discriminate.
  - destruct b; discriminate.
  - revert items e. fix IHl 1. intros [|x rest] e; [discriminate|].
    pose proof (IH x) as Hx. pose proof (IHl rest) as Hrest.
    assert (Hhead : forall e',
               match x with
               | VUndefined | VNull => Ok ""
               | _ => to_string x
               end = Throw e' ->
               e' = TypeError "Cannot convert object to primitive value").
    { intros e'. destruct x; try discriminate; apply Hx. }
    clear Hx.
    match goal with
    | |- rbind ?h _ = _ -> _ => destruct h as [s|e1]
    end; cbn [rbind].
    + destruct rest as [|y rest']; [discriminate|].
      match goal with
      | |- rbind ?j _ = _ -> _ => destruct j as [t|e2]
      end; cbn [rbind]; [discriminate|].
      intros H. injection H as <-. apply Hrest. reflexivity.
    + intros H. injection H as <-. apply Hhead. reflexivity.
  - destruct (assoc "toString" props); [|discriminate].
    intros H. injection H as <-. reflexivity.
Qed.

(** X11.  What [getPatient] does for a string identifier is settled by
    the gateway's answer to the one request it sends.  When the gateway
    resolves, it returns the data.  When the gateway answers 404, it
    throws "Patient with ID '<id>' not found. Try searching for patients
    first."  On any other rejection it throws "Failed to fetch patient
    data"; the gateway's own message goes to the console only.  An
    identifier that cannot be turned into a string is answered with
    "Failed to fetch patient data" without any request. *)
Theorem getPatient_outcomes (id : string) env st :
  (forall data,
      axios_get env (patient_url id) = Resolved data ->
      getPatient (VStr id) env st
      = (Ok data, log (HttpGet (patient_url id)) st))
  /\ (forall message,
        axios_get env (patient_url id) = Rejected (Some 404%Z) message ->
        getPatient (VStr id) env st
        = (Throw (JsError ("Patient with ID '" ++ id
                           ++ "' not found. Try searching for patients first.")),
           log (ConsoleError ("Patient " ++ id ++ " not found on server "
                              ++ FHIR_BASE_URL))
               (log (HttpGet (patient_url id)) st)))
  /\ (forall response_status message,
        axios_get env (patient_url id) = Rejected response_status message ->
        response_status <> Some 404%Z ->
        getPatient (VStr id) env st
        = (Throw (JsError "Failed to fetch patient data"),
           log (ConsoleError ("Error fetching patient: " ++ message))
               (log (HttpGet (patient_url id)) st)))
  /\ (forall (patientId : value) e,
        to_string patientId = Throw e ->
        getPatient patientId env st
        = (Throw (JsError "Failed to fetch patient data"),
           log (ConsoleError
                  "Error fetching patient: Cannot convert object to primitive value")
               st)).
Proof.
  split; [|split; [|split]].
  - intros data Hget.
    apply (getPatient_resolved (VStr id) id _ _ _ eq_refl Hget).
  - intros message Hget.
    apply (getPatient_not_found (VStr id) id _ _ _ eq_refl Hget).
  - intros response_status message Hget Hstatus.
    apply (getPatient_failed (VStr id) id _ _ _ _ eq_refl Hget Hstatus).
  - intros patientId e Hthrow.
    rewrite (to_string_throws _ _ Hthrow) in Hthrow.
    unfold getPatient, try_catch, mbind, lift, emit, throw.
    rewrite Hthrow. reflexivity.
Qed.

Lemma getPatient_outcomes_witness :
  getPatient (VStr "p1") clinic_env blank
  = (Ok (VObj [("id", VStr "p1");
               ("name", VArr [VObj [("given", VArr [VStr "Ann"]);
                                    ("family", VStr "Lee")]])]),
     log (HttpGet (patient_url "p1")) blank)
  /\ getPatient (VStr "missing-id") clinic_env blank
     = (Throw (JsError "Patient with ID 'missing-id' not found. Try searching for patients first."),
        log (ConsoleError ("Patient missing-id not found on server "
                           ++ FHIR_BASE_URL))
            (log (HttpGet (patient_url "missing-id")) blank))
  /\ getPatient (VStr "p9") clinic_env blank
     = (Throw (JsError "Failed to fetch patient data"),
        log (ConsoleError "Error fetching patient: connect ECONNREFUSED")
            (log (HttpGet (patient_url "p9")) blank))
  /\ getPatient (VObj [("toString", VNull)]) clinic_env blank
     = (Throw (JsError "Failed to fetch patient data"),
        log (ConsoleError
               "Error fetching patient: Cannot convert object to primitive value")
            blank).
Proof.
  split; [|split; [|split]].
  - apply (getPatient_outcomes "p1" clinic_env blank). reflexivity.
  - destruct (getPatient_outcomes "missing-id" clinic_env blank)
      as (_ & Hmissing & _).
    apply (Hmissing "Request failed with status code 404"). reflexivity.
  - destruct (getPatient_outcomes "p9" clinic_env blank)
      as (_ & _ & Hfail & _).
    apply (Hfail None "connect ECONNREFUSED"); [reflexivity | discriminate].
  - destruct (getPatient_outcomes "" clinic_env blank) as (_ & _ & _ & Hconv).
    apply (Hconv (VObj [("toString", VNull)])
                 (TypeError "Cannot convert object to primitive value")).
    reflexivity.
Defined.

(** ** GET /api/patients/search *)

Lemma percent_encode_safe (c d : ascii) :
  In d (list_ascii_of_string (percent_encode c)) ->
  uri_unreserved d = true \/ d = "%"%char.
Proof.
  destruct c as [[] [] [] [] [] [] [] []]; simpl;
    intros [<-|[<-|[<-|[]]]]; (right; reflexivity) || (left; reflexivity).
Qed.

(** X12.  [encodeURIComponent], as the search route applies it to
    [name], [family] and [given], yields only letters, digits, the marks
    [- _ . ! ~ * ' ( )] and [%]: an encoded search term holds no [&],
    [=], [#], [?], [/], [+] or space, and so cannot end its parameter or
    start another one. *)
Theorem encode_uri_component_safe (s : string) (c : ascii) :
  In c (list_ascii_of_string (encode_uri_component s)) ->
  (uri_unreserved c = true \/ c = "%"%char)
  /\ ~ In c ["&"; "="; "#"; "?"; "/"; "+"; " "]%char.
Proof.
  intros Hin.
  assert (Hsafe : uri_unreserved c = true \/ c = "%"%char).
  { induction s as [|a rest IH]; simpl in Hin; [contradiction|].
    destruct (uri_unreserved a) eqn:Ha.
    - simpl in Hin. destruct Hin as [<-|Hin]; [left; exact Ha | auto].
    - assert (Hsplit : In c (list_ascii_of_string (percent_encode a))
                       \/ In c (list_ascii_of_string
                                  (encode_uri_component rest))).
      { unfold percent_encode in *. simpl in Hin |- *. tauto. }
      destruct Hsplit as [H|H]; [apply (percent_encode_safe a c H) | auto]. }
  split; [exact Hsafe|].
  intros Hbad. simpl in Hbad.
  destruct Hsafe as [Hu| ->].
  - repeat (destruct Hbad as [<-|Hbad]; [vm_compute in Hu; discriminate Hu|]).
    contradiction.
  - repeat (destruct Hbad as [Hbad|Hbad]; [discriminate Hbad|]).
    contradiction.
Qed.

Lemma encode_uri_component_safe_witness :
  encode_uri_component "smith & co" = "smith%20%26%20co"
  /\ ~ In "&"%char (list_ascii_of_string (encode_uri_component "smith & co")).
Proof.
  split; [reflexivity|].
  intros Hin.
  destruct (encode_uri_component_safe "smith & co" "&" Hin) as [_ Hnot].
  apply Hnot. left. reflexivity.
Defined.

Lemma add_parameter_text (url k : string) (v : value) env st :
  text_or_absent v = true ->
  add_parameter url k v env st = (Ok (with_parameter url k v), st).
Proof.
  destruct v; try discriminate; intros _; [reflexivity|].
  unfold add_parameter, with_parameter. cbn [truthy].
  destruct (s =? "")%string; reflexivity.
Qed.

Lemma destructure_query_get (query : value) (k : string) :
  nullish query = false -> destructure_query query k = Ok (get query k).
Proof. destruct query; try discriminate; reflexivity. Qed.

Lemma search_count (query : value) :
  text_or_absent (get query "limit") = true ->
  to_string (if is_undefined (get query "limit") then VNum 10
             else get query "limit")
  = Ok (match get query "limit" with
        | VStr limit => limit
        | _ => "10"
        end).
Proof. destruct (get query "limit"); try discriminate; reflexivity. Qed.

(** Runs the route up to the request, for a query of strings. *)
Ltac search_prefix query Hq :=
  unfold search_query in Hq;
  repeat (apply andb_true_iff in Hq; destruct Hq as [Hq ?]);
  apply negb_true_iff in Hq;
  unfold get_api_patients_search, try_catch;
  do 4 (erewrite mbind_ok
         by (unfold lift; rewrite (destructure_query_get _ _ Hq);
             reflexivity));
  erewrite mbind_ok
    by (unfold lift; rewrite search_count by assumption; reflexivity);
  do 3 (erewrite mbind_ok by (apply add_parameter_text; assumption));
  fold (search_url query).

(** X13.  For a query whose [name], [family], [given] and [limit] are
    strings or absent, the search route sends exactly one request, to
    [<base>/Patient?_count=<limit>] followed by [&name=], [&family=] and
    [&given=] (in this order) for the terms that are given and not empty.
    The terms are percent-encoded; [limit] is put in as it is and is
    ["10"] when absent.  A 200 answer reports that URL as [searchUrl]. *)
Theorem search_sends_one_request (query : value) env st :
  search_query query = true ->
  exists response st',
    get_api_patients_search query env st = (Ok response, st')
    /\ st' = log (HttpGet (search_url query)) st
    /\ search_url query
       = with_parameter
           (with_parameter
              (with_parameter
                 (FHIR_BASE_URL ++ "/Patient?_count="
                  ++ match get query "limit" with
                     | VStr limit => limit
                     | _ => "10"
                     end)
                 "name" (get query "name"))
              "family" (get query "family"))
           "given" (get query "given")
    /\ (status response = 200%Z ->
        get (body response) "searchUrl" = VStr (search_url query)).
Proof.
  intros Hq. search_prefix query Hq.
  unfold mbind, axios_get_data, lift, ret.
  destruct (axios_get env (search_url query)) as [data|s m].
  2:{ do 2 eexists. split; [reflexivity|]. split; [reflexivity|].
      split; [reflexivity|]. discriminate. }
  destruct (field data "entry") as [entry|e].
  2:{ do 2 eexists. split; [reflexivity|]. split; [reflexivity|].
      split; [reflexivity|]. discriminate. }
  destruct (if nullish entry then _ else _) as [[mapped|e] st1] eqn:Hmap.
  2:{ assert (st1 = log (HttpGet (search_url query)) st) as ->
        by (destruct (nullish entry); [|destruct (call_map _ _ _)];
            injection Hmap as _ <-; reflexivity).
      do 2 eexists. split; [reflexivity|]. split; [reflexivity|].
      split; [reflexivity|]. discriminate. }
  assert (st1 = log (HttpGet (search_url query)) st) as ->
    by (destruct (nullish entry); [|destruct (call_map _ _ _)];
        injection Hmap as _ <-; reflexivity).
  destruct (field data "total") as [total|e].
  2:{ do 2 eexists. split; [reflexivity|]. split; [reflexivity|].
      split; [reflexivity|]. discriminate. }
  destruct (field (js_or mapped (VArr [])) "length") as [n|e].
  2:{ do 2 eexists. split; [reflexivity|]. split; [reflexivity|].
      split; [reflexivity|]. discriminate. }
  do 2 eexists. split; [reflexivity|]. split; [reflexivity|].
  split; [reflexivity|]. intros _. reflexivity.
Qed.

Lemma search_sends_one_request_witness :
  search_query (VObj [("given", VStr "ann marie"); ("limit", VStr "3")])
  = true
  /\ exists response st',
      get_api_patients_search
        (VObj [("given", VStr "ann marie"); ("limit", VStr "3")])
        registry_env blank = (Ok response, st')
      /\ trace st'
         = [HttpGet (FHIR_BASE_URL ++ "/Patient?_count=3&given=ann%20marie")].
Proof.
  split; [reflexivity|].
  destruct (search_sends_one_request
              (VObj [("given", VStr "ann marie"); ("limit", VStr "3")])
              registry_env blank eq_refl)
    as (response & st' & Hrun & -> & _).
  exists response. eexists. split; [exact Hrun | reflexivity].
Defined.

(** X14.  When the gateway rejects the search request, the search route
    answers 500 with the gateway's own error message; unlike
    [getPatient], it does not replace the message. *)
Theorem search_gateway_failure (query : value) (message : string)
        (response_status : option Z) env st :
  search_query query = true ->
  axios_get env (search_url query) = Rejected response_status message ->
  get_api_patients_search query env st
  = (Ok {| status := 500;
           body := VObj [("success", VBool false);
                         ("error", VStr message)] |},
     log (HttpGet (search_url query)) st).
Proof.
  intros Hq Hget. search_prefix query Hq.
  unfold mbind, axios_get_data. rewrite Hget. reflexivity.
Qed.

Lemma search_gateway_failure_witness :
  get_api_patients_search (VObj [("family", VStr "smith")]) registry_env blank
  = (Ok {| status := 500;
           body := VObj [("success", VBool false);
                         ("error", VStr "connect ECONNREFUSED")] |},
     log (HttpGet (FHIR_BASE_URL ++ "/Patient?_count=10&family=smith")) blank).
Proof.
  apply (search_gateway_failure (VObj [("family", VStr "smith")])
           "connect ECONNREFUSED" None registry_env blank); reflexivity.
Defined.

Lemma map_result_all (f : value -> Result value) (items results : list value) :
  Forall2 (fun item result => f item = Ok result) items results ->
  map_result f items = Ok results.
Proof.
  induction 1 as [|item result items results Hhead _ IH]; simpl.
  - reflexivity.
  - rewrite Hhead, IH. reflexivity.
Qed.

Lemma map_result_first_throw (f : value -> Result value)
      (good results : list value) (bad : value) (rest : list value)
      (e : Exn) :
  Forall2 (fun item result => f item = Ok result) good results ->
  f bad = Throw e ->
  map_result f (good ++ bad :: rest) = Throw e.
Proof.
  intros Hgood Hbad.
  induction Hgood as [|item result items results' Hhead _ IH]; simpl.
  - rewrite Hbad. reflexivity.
  - rewrite Hhead, IH. reflexivity.
Qed.

(** X15.  When the search resolves with a bundle, the route answers 200.
    Without [entry] the patient list is empty.  With an entry list whose
    resources all normalize, the patient list holds the normalized record
    of each entry, in the order of the bundle.  [total] is the bundle's
    [total] and falls back to the number of patients when that is missing
    or zero. *)
Theorem search_results (query data : value) env st :
  search_query query = true ->
  axios_get env (search_url query) = Resolved data ->
  nullish data = false ->
  (nullish (get data "entry") = true ->
   get_api_patients_search query env st
   = (Ok {| status := 200;
            body := VObj [("success", VBool true);
                          ("patients", VArr []);
                          ("total", js_or (get data "total") (VNum 0));
                          ("searchUrl", VStr (search_url query))] |},
      log (HttpGet (search_url query)) st))
  /\ (forall entries patients,
        get data "entry" = VArr entries ->
        Forall2 (fun entry patientInfo =>
                   extractPatientInfo (get entry "resource") = Ok patientInfo
                   /\ nullish entry = false)
                entries patients ->
        get_api_patients_search query env st
        = (Ok {| status := 200;
                 body := VObj [("success", VBool true);
                               ("patients", VArr patients);
                               ("total",
                                js_or (get data "total")
                                      (VNum (Z.of_nat (List.length entries))));
                               ("searchUrl", VStr (search_url query))] |},
           log (HttpGet (search_url query)) st)).
Proof.
  intros Hq Hget Hdata. split.
  - intros Hentry. search_prefix query Hq.
    unfold mbind, axios_get_data, lift, ret. rewrite Hget.
    rewrite !(field_get _ _ Hdata). rewrite Hentry. reflexivity.
  - intros entries patients Hentry Hall.
    assert (Hmap : Forall2 (fun entry patientInfo =>
                              entry_patient entry = Ok patientInfo)
                           entries patients).
    { apply (Forall2_impl _ (l1 := entries) (l2 := patients)
               (fun entry info (H : extractPatientInfo (get entry "resource")
                                    = Ok info /\ nullish entry = false) =>
                  eq_trans
                    (f_equal (fun r => rbind r extractPatientInfo)
                             (field_get entry "resource" (proj2 H)))
                    (proj1 H)) Hall). }
    search_prefix query Hq.
    unfold mbind, axios_get_data, lift, ret. rewrite Hget.
    rewrite !(field_get _ _ Hdata). rewrite Hentry. cbn [nullish call_map].
    rewrite (map_result_all entry_patient entries patients Hmap).
    cbn [rbind js_or truthy field].
    rewrite (Forall2_length Hall). reflexivity.
Qed.

Lemma search_results_witness :
  get_api_patients_search (VObj [("name", VStr "nobody")]) registry_env blank
  = (Ok {| status := 200;
           body := VObj [("success", VBool true);
                         ("patients", VArr []);
                         ("total", VNum 0);
                         ("searchUrl",
                          VStr (FHIR_BASE_URL
                                ++ "/Patient?_count=10&name=nobody"))] |},
     log (HttpGet (FHIR_BASE_URL ++ "/Patient?_count=10&name=nobody")) blank)
  /\ exists first second st',
      get_api_patients_search (VObj [("name", VStr "lee")]) registry_env blank
      = (Ok {| status := 200;
               body := VObj [("success", VBool true);
                             ("patients", VArr [first; second]);
                             ("total", VNum 2);
                             ("searchUrl",
                              VStr (FHIR_BASE_URL
                                    ++ "/Patient?_count=10&name=lee"))] |},
         st')
      /\ get first "id" = VStr "p1" /\ get second "id" = VStr "p2".
Proof.
  split.
  - apply (search_results
             (VObj [("name", VStr "nobody")]) (VObj [("total", VNum 0)])
             registry_env blank eq_refl eq_refl eq_refl).
    reflexivity.
  - destruct (search_results
                (VObj [("name", VStr "lee")])
                (VObj [("total", VNum 2);
                       ("entry",
                        VArr [VObj [("resource", sample_patient)];
                              VObj [("resource", VObj [("id", VStr "p2")])]])])
                registry_env blank eq_refl eq_refl eq_refl)
      as [_ Hlist].
    do 3 eexists. split.
    + apply (Hlist [VObj [("resource", sample_patient)];
                    VObj [("resource", VObj [("id", VStr "p2")])]]
                   [_; _] eq_refl).
      repeat constructor.
    + split; reflexivity.
Defined.

(** X16.  The search has no per-entry isolation: when the resource of one
    entry cannot be normalized (and those before it can), the whole
    search answers 500 with that entry's error and reports no patient at
    all. *)
Theorem search_bad_entry (query data : value) (good patients : list value)
        (bad : value) (rest : list value) (e : Exn) env st :
  search_query query = true ->
  axios_get env (search_url query) = Resolved data ->
  get data "entry" = VArr (good ++ bad :: rest) ->
  Forall2 (fun entry patientInfo => entry_patient entry = Ok patientInfo)
          good patients ->
  entry_patient bad = Throw e ->
  get_api_patients_search query env st
  = (Ok {| status := 500;
           body := VObj [("success", VBool false);
                         ("error", VStr (exn_message e))] |},
     log (HttpGet (search_url query)) st).
Proof.
  intros Hq Hget Hentry Hgood Hbad. search_prefix query Hq.
  assert (Hdata : nullish data = false).
  { destruct data; try reflexivity; discriminate Hentry. }
  unfold mbind, axios_get_data, lift, ret. rewrite Hget.
  rewrite !(field_get _ _ Hdata). rewrite Hentry. cbn [nullish call_map].
  rewrite (map_result_first_throw entry_patient good patients bad rest e
             Hgood Hbad).
  reflexivity.
Qed.

Lemma search_bad_entry_witness :
  get_api_patients_search (VObj [("name", VStr "doe")]) registry_env blank
  = (Ok {| status := 500;
           body := VObj [("success", VBool false);
                         ("error",
                          VStr "Cannot read properties of undefined (reading 'name')")] |},
     log (HttpGet (FHIR_BASE_URL ++ "/Patient?_count=10&name=doe")) blank).
Proof.
  apply (search_bad_entry
           (VObj [("name", VStr "doe")])
           (VObj [("entry", VArr [VObj [("resource", sample_patient)];
                                  VObj [("fullUrl", VStr "urn:x")]])])
           [VObj [("resource", sample_patient)]]
           [VObj [("id", VStr "p1"); ("firstName", VStr "");
                  ("lastName", VStr ""); ("birthDate", VUndefined);
                  ("gender", VUndefined); ("phone", VStr "555-0100");
                  ("address", VUndefined)]]
           (VObj [("fullUrl", VStr "urn:x")]) []
           (TypeError "Cannot read properties of undefined (reading 'name')")
           registry_env blank eq_refl eq_refl eq_refl).
  - repeat constructor.
  - reflexivity.
Defined.

(** ** Every request is answered *)

Lemma try_catch_status (inner : M Response) (code : Z) (P : Z -> Prop)
      env st :
  (forall response st', inner env st = (Ok response, st') ->
                        P (status response)) ->
  P code ->
  exists response st',
    try_catch inner
              (fun error => ret (respond code (failure (exn_message error))))
              env st = (Ok response, st')
    /\ P (status response).
Proof.
  intros Hok Hcode. unfold try_catch.
  destruct (inner env st) as [[response|e] st'].
  - exists response, st'. split; [reflexivity|]. apply (Hok _ _ eq_refl).
  - do 2 eexists. split; [reflexivity|]. exact Hcode.
Qed.

(** Walks back through the binds of a run that ended well. *)
Ltac unwind H :=
  first
    [ apply mbind_ok_inv in H; destruct H as (? & ? & _ & H); unwind H
    | match type of H with
      | (if ?c then _ else _) _ _ = _ => destruct c; unwind H
      end
    | unfold ret in H; injection H as <- _ ].

(** X17.  No route lets an exception escape: each answers every request,
    [POST /api/verify-insurance] and [POST /api/verify-batch] with 200,
    400 or 500, [GET /api/patient/:id] with 200 or 404,
    [GET /api/coverage/:patientId] and [GET /api/patients/search] with
    200 or 500.  Once it has a body, the batch route never answers 500:
    whatever goes wrong for an identifier stays in that identifier's
    entry. *)
Theorem routes_always_respond env st :
  (forall req_body,
      exists response st',
        post_api_verify_insurance req_body env st = (Ok response, st')
        /\ In (status response) [200; 400; 500]%Z)
  /\ (forall req_body,
        exists response st',
          post_api_verify_batch req_body env st = (Ok response, st')
          /\ In (status response) [200; 400; 500]%Z
          /\ (nullish req_body = false -> status response <> 500%Z))
  /\ (forall id,
        exists response st',
          get_api_patient id env st = (Ok response, st')
          /\ In (status response) [200; 404]%Z)
  /\ (forall patientId,
        exists response st',
          get_api_coverage patientId env st = (Ok response, st')
          /\ In (status response) [200; 500]%Z)
  /\ (forall query,
        exists response st',
          get_api_patients_search query env st = (Ok response, st')
          /\ In (status response) [200; 500]%Z).
Proof.
  repeat split.
  - intros req_body. unfold post_api_verify_insurance.
    apply (try_catch_status _ _ (fun code => In code [200; 400; 500]%Z));
      [|simpl; tauto].
    intros response st' H. unwind H; simpl; tauto.
  - intros req_body.
    destruct (nullish req_body) eqn:Hn.
    + exists (respond 500 (failure (exn_message
                (TypeError ("Cannot destructure property 'patientIds' of 'req.body' as it is "
                            ++ kind_name req_body ++ "."))))).
      exists st. split; [|split; [simpl; tauto | discriminate]].
      destruct req_body; try discriminate Hn; reflexivity.
    + assert (Hbody : destructure req_body "patientIds"
                      = Ok (get req_body "patientIds")).
      { destruct req_body; try discriminate Hn; reflexivity. }
      destruct (get req_body "patientIds") as [| | | | |items| |] eqn:Hids;
        try (eexists; exists st; split;
             [apply (verify_batch_requires_ids_run _ _ env st Hbody);
              left; reflexivity
             |split; [simpl; tauto | discriminate]]).
      destruct items as [|patientId rest].
      * eexists; exists st; split;
          [apply (verify_batch_requires_ids_run _ _ env st Hbody);
           right; reflexivity
          |split; [simpl; tauto | discriminate]].
      * destruct (verify_batch_run req_body (patientId :: rest) env st Hbody)
          as (draws & st' & _ & Hrun); [discriminate|].
        do 2 eexists. split; [exact Hrun|].
        split; [simpl; tauto | discriminate].
  - intros id. unfold get_api_patient.
    apply (try_catch_status _ _ (fun code => In code [200; 404]%Z));
      [|simpl; tauto].
    intros response st' H. unwind H; simpl; tauto.
  - intros patientId. unfold get_api_coverage.
    apply (try_catch_status _ _ (fun code => In code [200; 500]%Z));
      [|simpl; tauto].
    intros response st' H. unwind H; simpl; tauto.
  - intros query. unfold get_api_patients_search.
    apply (try_catch_status _ _ (fun code => In code [200; 500]%Z));
      [|simpl; tauto].
    intros response st' H. unwind H; simpl; tauto.
Qed.

Lemma routes_always_respond_witness :
  exists response st',
    post_api_verify_batch (VArr [VStr "p1"]) clinic_env blank
    = (Ok response, st')
    /\ status response <> 500%Z.
Proof.
  destruct (routes_always_respond clinic_env blank) as (_ & Hbatch & _).
  destruct (Hbatch (VArr [VStr "p1"])) as (response & st' & Hrun & _ & Hnot).
  exists response, st'. split; [exact Hrun|]. apply Hnot. reflexivity.
Defined.

(** ** The routes when all goes well *)

(** X18.  [GET /api/patient/:id] for a patient the gateway has answers
    200 with the normalized record of the resource, after exactly one
    request. *)
Theorem get_api_patient_found (id : string) (patient : value) env st :
  axios_get env (patient_url id) = Resolved patient ->
  patient_resource patient = true ->
  get_api_patient id env st
  = (Ok {| status := 200;
           body :=
             VObj [("success", VBool true);
                   ("patient",
                    VObj [("id", get patient "id");
                          ("firstName",
                           js_or (get0 (get (get0 (get patient "name"))
                                            "given")) (VStr ""));
                          ("lastName",
                           js_or (get (get0 (get patient "name")) "family")
                                 (VStr ""));
                          ("birthDate", get patient "birthDate");
                          ("gender", get patient "gender");
                          ("phone", first_phone (get patient "telecom"));
                          ("address", get0 (get patient "address"))])] |},
     log (HttpGet (patient_url id)) st).
Proof.
  intros Hget Hres.
  destruct patient as [| | | | | |props|]; try discriminate Hres.
  unfold get_api_patient.
  erewrite try_catch_ok; [reflexivity|].
  erewrite mbind_ok
    by (apply (getPatient_resolved (VStr id) id _ env st eq_refl Hget)).
  erewrite mbind_ok
    by (unfold lift; rewrite (extractPatientInfo_resource props Hres);
        reflexivity).
  reflexivity.
Qed.

Lemma get_api_patient_found_witness :
  exists patientInfo,
    get_api_patient "p1" clinic_env blank
    = (Ok {| status := 200;
             body := VObj [("success", VBool true);
                           ("patient", patientInfo)] |},
       log (HttpGet (patient_url "p1")) blank)
    /\ get patientInfo "firstName" = VStr "Ann"
    /\ get patientInfo "lastName" = VStr "Lee".
Proof.
  eexists. split.
  - apply (get_api_patient_found "p1" _ clinic_env blank eq_refl eq_refl).
  - split; reflexivity.
Defined.


